(** * Token lifecycle of [src/auth.ts]: refresh, retry loop and token store

    A shallow embedding of the token manager of the Dropbox MCP server
    ([src/auth.ts]).  The module keeps one mutable [tokenData] record,
    persists it encrypted in [.tokens.json] and refreshes the access token
    through the provider's token endpoint.

    JavaScript numbers are modelled by [Z] (all the numbers of the module are
    millisecond time stamps, counters and HTTP status codes), an optional
    field [f?: T] by [option T], and an [async] function by a function from
    the world before the call to an outcome and the world after it. *)

From Ceres Require Import Ceres.
From Stdlib Require Import ZArith Ascii String List Bool Lia.
From Stdlib Require Import DecimalString.
From Stdlib.Strings Require Byte.
Import ListNotations.

Local Open Scope Z_scope.
Local Open Scope string_scope.

Set Implicit Arguments.

(* ================================================================== *)
(** * Data model *)
(* ================================================================== *)

(** [interface TokenData] (auth.ts, lines 20-28). *)
Record TokenData : Type := mkTokenData {
  accessToken        : string;
  refreshToken       : string;
  expiresAt          : Z;
  scope              : list string;
  lastRefreshAttempt : option Z;
  refreshAttempts    : option Z;
  codeVerifier       : option string
}.

(** [TOKEN_REFRESH_CONFIG], imported from [security-utils.js]: only its three
    fields are read by [auth.ts]. *)
Record RefreshConfig : Type := mkRefreshConfig {
  thresholdMinutes : Z;
  maxRetries       : Z;
  retryDelay       : Z
}.

(** The members of the SDK's [ErrorCode] enumeration the module uses. *)
Inductive ErrorCode : Type :=
| InvalidParams
| InvalidRequest
| InternalError.

(** What [auth.ts] reads of an HTTP response attached to an axios error:
    [response.status] and the [error] member of [response.data]. *)
Record AxiosResponse : Type := mkAxiosResponse {
  status     : Z;
  data_error : option string
}.

(** The values that are thrown and caught in the module.
    - [McpError code message]: [new McpError(code, message)];
    - [TokenRefreshError message code retryable]: the class imported from
      [security-utils.js], built with these three arguments in this order;
    - [AxiosError message response]: an error for which
      [axios.isAxiosError] holds, with its optional [response];
    - [PlainError message]: any other instance of [Error];
    - [NonError]: a thrown value that is not an instance of [Error]. *)
Inductive JsError : Type :=
| McpError (code : ErrorCode) (message : string)
| TokenRefreshError (message : string) (code : string) (retryable : bool)
| AxiosError (message : string) (response : option AxiosResponse)
| PlainError (message : string)
| NonError.

(** How a call ends: [return v] or [throw e]. *)
Inductive Outcome (A : Type) : Type :=
| Returned (v : A)
| Thrown (e : JsError).
Arguments Thrown {A} e.

(** What the provider's token endpoint does with a request: a 2xx answer, of
    which the module reads [data.access_token] and [data.expires_in], or a
    rejection of the promise [axios.post] returned. *)
Inductive AxiosReply : Type :=
| Resolved (access_token : string) (expires_in : Z)
| Rejected (error : JsError).

(** The file [.tokens.json] as [fs] shows it: missing, present but not
    readable as text, or present with some text. *)
Inductive TokenFile : Type :=
| Absent
| Unreadable
| Contents (text : string).

(** Effects the claims speak about, recorded newest first. *)
Inductive Event : Type :=
| EvHttpPost (refresh_token : string)
| EvSleep (ms : Z)
| EvWriteFile (text : string)
| EvConsole (line : string).

(** The state the module runs in: its [let tokenData], the token file,
    whether the file can be opened for writing, whether a write to the open
    file goes through ([Some n]: it fails once [n] bytes are on the disk),
    the clock [Date.now()] reads, how many requests the provider has
    received, and the effects so far. *)
Record World : Type := mkWorld {
  tokenData    : option TokenData;
  tokenFile    : TokenFile;
  fsWritable   : bool;
  writeFault   : option nat;
  clock        : Z;
  requestsSent : nat;
  trace        : list Event
}.

(* ================================================================== *)
(** * A state and exception monad for the module's functions *)
(* ================================================================== *)

Definition Js (A : Type) : Type := World -> Outcome A * World.

Definition ret {A} (v : A) : Js A := fun w => (Returned v, w).

Definition throw {A} (e : JsError) : Js A := fun w => (Thrown e, w).

Definition bind {A B} (m : Js A) (k : A -> Js B) : Js B :=
  fun w =>
    match m w with
    | (Returned v, w') => k v w'
    | (Thrown e, w') => (Thrown e, w')
    end.

(** [try { body } catch (error) { handler }] *)
Definition try_catch {A} (body : Js A) (handler : JsError -> Js A) : Js A :=
  fun w =>
    match body w with
    | (Returned v, w') => (Returned v, w')
    | (Thrown e, w') => handler e w'
    end.

Declare Scope js_scope.
Delimit Scope js_scope with js.
Notation "x <- m ;; k" := (bind m (fun x => k))
  (at level 61, m at next level, right associativity) : js_scope.
Notation "m ;;; k" := (bind m (fun _ => k))
  (at level 61, right associativity) : js_scope.
Local Open Scope js_scope.

Definition emit (e : Event) (w : World) : World :=
  mkWorld (tokenData w) (tokenFile w) (fsWritable w) (writeFault w) (clock w)
          (requestsSent w) (e :: trace w).

Definition advance (ms : Z) (w : World) : World :=
  mkWorld (tokenData w) (tokenFile w) (fsWritable w) (writeFault w)
          (clock w + ms) (requestsSent w) (trace w).

Definition set_tokenData (d : option TokenData) (w : World) : World :=
  mkWorld d (tokenFile w) (fsWritable w) (writeFault w) (clock w)
          (requestsSent w) (trace w).

(** The world once [text] has been written to the token file. *)
Definition written (text : string) (w : World) : World :=
  mkWorld (tokenData w) (Contents text) (fsWritable w) (writeFault w)
          (clock w) (requestsSent w) (EvWriteFile text :: trace w).

(** The world once a request carrying [refresh_token] has been answered,
    [latency] milliseconds after it was sent. *)
Definition answered (refresh_token : string) (latency : N) (w : World) : World :=
  mkWorld (tokenData w) (tokenFile w) (fsWritable w) (writeFault w)
          (clock w + Z.of_N latency) (S (requestsSent w))
          (EvHttpPost refresh_token :: trace w).

(** [Date.now()] *)
Definition Date_now : Js Z := fun w => (Returned (clock w), w).

(** Reading the module variable [tokenData]. *)
Definition get_tokenData : Js (option TokenData) :=
  fun w => (Returned (tokenData w), w).

(** Assigning the module variable [tokenData] (or a field of the object it
    holds). *)
Definition put_tokenData (d : option TokenData) : Js unit :=
  fun w => (Returned tt, set_tokenData d w).

(** [console.log] / [console.error] *)
Definition console (line : string) : Js unit :=
  fun w => (Returned tt, emit (EvConsole line) w).

(** [await new Promise(resolve => setTimeout(resolve, ms))]: the timer does
    not fire early, and the clock does not run backwards. *)
Definition sleep (ms : Z) : Js unit :=
  fun w => (Returned tt, advance (Z.max 0 ms) (emit (EvSleep ms) w)).

(** [fs.existsSync(TOKEN_STORE_PATH)] *)
Definition fs_existsSync : Js bool :=
  fun w => (Returned match tokenFile w with Absent => false | _ => true end, w).

(** [fs.readFileSync(TOKEN_STORE_PATH, 'utf-8')] *)
Definition fs_readFileSync : Js string :=
  fun w =>
    match tokenFile w with
    | Contents text => (Returned text, w)
    | Absent => (Thrown (PlainError "ENOENT: no such file or directory"), w)
    | Unreadable => (Thrown (PlainError "EISDIR: illegal operation on a directory"), w)
    end.

(** [fs.writeFileSync(TOKEN_STORE_PATH, text)]: the file is opened with the
    flag [w], which empties it, and the text is written to it.  When the
    open fails the file is as it was; when the write fails after the open,
    the file is left with the bytes that reached the disk, a prefix of the
    text. *)
Definition fs_writeFileSync (text : string) : Js unit :=
  fun w =>
    if fsWritable w
    then match writeFault w with
         | None => (Returned tt, written text w)
         | Some n =>
             (Thrown (PlainError "ENOSPC: no space left on device, write"),
              written (substring 0 n text) w)
         end
    else (Thrown (PlainError "EACCES: permission denied"), w).

(** Lifting a helper that either returns or throws. *)
Definition orThrow {A} (r : option A) (e : JsError) : Js A :=
  match r with
  | Some v => ret v
  | None => throw e
  end.

(* ================================================================== *)
(** * Constants of the module *)
(* ================================================================== *)

(** [ERROR_MESSAGES] (lines 54-61). *)
Module ERROR_MESSAGES.
Definition TOKEN_EXPIRED := "Access token has expired. Attempting to refresh...".
Definition REFRESH_FAILED := "Failed to refresh access token after multiple attempts.".
Definition INVALID_GRANT :=
  "The refresh token is invalid or has been revoked. Please re-authenticate.".
Definition NETWORK_ERROR := "Network error occurred while refreshing token. Will retry...".
Definition RATE_LIMIT := "Rate limit exceeded. Please try again later.".
Definition SERVER_ERROR := "Dropbox server error occurred. Will retry...".
End ERROR_MESSAGES.

Definition LOAD_FAILED :=
  "Failed to load token data. The token file may be corrupted or encryption key may be invalid.".
Definition SAVE_FAILED :=
  "Failed to save token data. Please check if the encryption key is properly set.".
Definition NO_REFRESH_TOKEN :=
  "No refresh token available. Please authenticate first by visiting the authorization URL.".
Definition NO_TOKEN_DATA :=
  "No token data available. Please authenticate first by visiting the authorization URL.".
Definition COOLDOWN := "Too many refresh attempts. Please wait before trying again.".
Definition UNKNOWN := "Unknown error occurred".

(** The error of the cooldown check (lines 176-180). *)
Definition cooldownError : JsError := TokenRefreshError COOLDOWN "RATE_LIMIT" true.

(** The error of the attempt limit (lines 188-192). *)
Definition maxRetriesError : JsError :=
  TokenRefreshError ERROR_MESSAGES.REFRESH_FAILED "MAX_RETRIES_EXCEEDED" false.

(** The error of the first check of [refreshAccessToken] (lines 166-169). *)
Definition noRefreshTokenError : JsError := McpError InvalidRequest NO_REFRESH_TOKEN.

(** Truthiness of a string, of an optional number, and [x || 0]. *)
Definition truthy_string (s : string) : bool := negb (s =? EmptyString)%string.

Definition truthy_number (n : option Z) : bool :=
  match n with
  | Some v => negb (v =? 0)%Z
  | None => false
  end.

Definition or_zero (n : option Z) : Z :=
  match n with
  | Some v => v
  | None => 0
  end.

(** A number inside a template literal. *)
Definition show_number (n : Z) : string := NilZero.string_of_int (Z.to_int n).

(** The [tokenData] the module starts with when [DROPBOX_ACCESS_TOKEN] is
    set (lines 46-51): no refresh token, four hours of assumed validity. *)
Definition staticTokenData (envAccessToken : string) (now : Z) : TokenData :=
  mkTokenData envAccessToken EmptyString (now + 4 * 60 * 60 * 1000)
              ["files.content.read"; "files.content.write"] None None None.

(* ================================================================== *)
(** * The functions of [auth.ts] *)
(* ================================================================== *)

Section Auth.

(** [TOKEN_REFRESH_CONFIG] of [security-utils.js]. *)
Variable cfg : RefreshConfig.

(** [EncryptedTokenData], [encryptData] and [decryptData] of
    [security-utils.js]; [None] stands for a call that throws.  The value
    [JSON.parse] gives is cast to [EncryptedTokenData] unchecked, so the
    type stands for any parsed value. *)
Variable EncryptedTokenData : Type.
Variable encryptData : TokenData -> option EncryptedTokenData.
Variable decryptData : EncryptedTokenData -> option TokenData.

(** [JSON.stringify(_, null, 2)] and [JSON.parse] ([None]: a
    [SyntaxError]). *)
Variable JSON_stringify : EncryptedTokenData -> string.
Variable JSON_parse : string -> option EncryptedTokenData.

(** The [message] property the SDK gives [new McpError(code, message)]. *)
Variable mcpMessage : ErrorCode -> string -> string.

(** The provider's token endpoint: what the n-th request, carrying the
    given refresh token, is answered with, and after how many
    milliseconds. *)
Variable provider : nat -> string -> N * AxiosReply.

(** [error instanceof Error ? error.message : 'Unknown error occurred'] *)
Definition errorMessage (error : JsError) : string :=
  match error with
  | McpError code message => mcpMessage code message
  | TokenRefreshError message _ _ => message
  | AxiosError message _ => message
  | PlainError message => message
  | NonError => UNKNOWN
  end.

(** [loadTokenData] (lines 71-85). *)
Definition loadTokenData : Js (option TokenData) :=
  try_catch
    (present <- fs_existsSync ;;
     if (present : bool) then
       text <- fs_readFileSync ;;
       encryptedData <- orThrow (JSON_parse text) (PlainError "SyntaxError") ;;
       data <- orThrow (decryptData encryptedData) (PlainError "decryptData") ;;
       ret (Some data)
     else ret None)
    (fun error =>
       console "Error loading token data:" ;;;
       throw (McpError InternalError LOAD_FAILED)).

(** [saveTokenData] (lines 87-99). *)
Definition saveTokenData (data : TokenData) : Js unit :=
  try_catch
    (encryptedData <- orThrow (encryptData data) (PlainError "encryptData") ;;
     fs_writeFileSync (JSON_stringify encryptedData) ;;;
     put_tokenData (Some data))
    (fun error =>
       console "Error saving token data:" ;;;
       throw (McpError InternalError SAVE_FAILED)).

(** [axios.post('https://api.dropboxapi.com/oauth2/token', ...)] with the
    refresh-token grant (lines 196-212). *)
Definition axios_post (refresh_token : string) : Js (string * Z) :=
  fun w =>
    let '(latency, reply) := provider (requestsSent w) refresh_token in
    let w' := answered refresh_token latency w in
    match reply with
    | Resolved access_token expires_in => (Returned (access_token, expires_in), w')
    | Rejected error => (Thrown error, w')
    end.

(** The [catch] block of [refreshAccessToken] (lines 225-266): the error
    it throws for the error it caught. *)
Definition classifyRefreshFailure (error : JsError) : JsError :=
  let generic :=
    TokenRefreshError ("Token refresh failed: " ++ errorMessage error)
                      "UNKNOWN_ERROR" true in
  match error with
  | AxiosError _ response =>
      let statusCode := match response with Some r => status r | None => 0 end in
      let errorData := match response with Some r => data_error r | None => None end in
      if (statusCode =? 401)%Z &&
         match errorData with Some e => (e =? "invalid_grant")%string | None => false end
      then TokenRefreshError ERROR_MESSAGES.INVALID_GRANT "INVALID_GRANT" false
      else if (statusCode =? 429)%Z
      then TokenRefreshError ERROR_MESSAGES.RATE_LIMIT "RATE_LIMIT" true
      else if (statusCode >=? 500)%Z
      then TokenRefreshError ERROR_MESSAGES.SERVER_ERROR "SERVER_ERROR" true
      else match response with
           | None => TokenRefreshError ERROR_MESSAGES.NETWORK_ERROR "NETWORK_ERROR" true
           | Some _ => generic
           end
  | _ => generic
  end.

(** The cooldown test (lines 174-175). *)
Definition inCooldown (td : TokenData) (now : Z) : bool :=
  truthy_number (lastRefreshAttempt td) &&
  (now - or_zero (lastRefreshAttempt td) <? retryDelay cfg)%Z.

(** The record after lines 184-185: the attempt is time-stamped and
    counted. *)
Definition noteAttempt (td : TokenData) (now : Z) : TokenData :=
  mkTokenData (accessToken td) (refreshToken td) (expiresAt td) (scope td)
              (Some now) (Some (or_zero (refreshAttempts td) + 1))
              (codeVerifier td).

(** [newTokenData] (lines 215-221). *)
Definition refreshedTokenData (td : TokenData) (access_token : string)
           (expires_in now : Z) : TokenData :=
  mkTokenData access_token (refreshToken td) (now + expires_in * 1000)
              (scope td) None (Some 0) (codeVerifier td).

(** The [try] block of [refreshAccessToken] (lines 196-224); [td] is the
    object [tokenData] holds. *)
Definition requestNewToken (td : TokenData) : Js string :=
  response <- axios_post (refreshToken td) ;;
  now <- Date_now ;;
  let newTokenData :=
    refreshedTokenData td (fst response) (snd response) now in
  saveTokenData newTokenData ;;;
  ret (accessToken newTokenData).

(** [refreshAccessToken] (lines 164-267). *)
Definition refreshAccessToken : Js string :=
  current <- get_tokenData ;;
  match current with
  | None => throw noRefreshTokenError
  | Some td =>
      if negb (truthy_string (refreshToken td)) then throw noRefreshTokenError
      else
        now <- Date_now ;;
        if inCooldown td now then throw cooldownError
        else
          let attempt := noteAttempt td now in
          put_tokenData (Some attempt) ;;;
          if (or_zero (refreshAttempts attempt) >? maxRetries cfg)%Z
          then throw maxRetriesError
          else try_catch (requestNewToken attempt)
                         (fun error => throw (classifyRefreshFailure error))
  end.

(** The message of lines 304-307. *)
Definition failedAfter (retryCount : Z) (error : JsError) : string :=
  "Token refresh failed after " ++ show_number retryCount ++ " attempts: "
    ++ errorMessage error.

(** The [while] loop of [getValidAccessToken] (lines 284-309), entered
    with the given [retryCount].  [None]: the fuel ran out before the loop
    ended. *)
Fixpoint retryLoop (fuel : nat) (retryCount : Z) (w : World)
  : option (Outcome string * World) :=
  if (retryCount <? maxRetries cfg)%Z then
    match fuel with
    | O => None
    | S fuel' =>
        match refreshAccessToken w with
        | (Returned token, w') => Some (Returned token, w')
        | (Thrown error, w') =>
            match error with
            | TokenRefreshError message _ retryable =>
                if negb retryable
                then Some (Thrown (McpError InvalidRequest message), w')
                else
                  let retryCount' := (retryCount + 1)%Z in
                  if (retryCount' <? maxRetries cfg)%Z
                  then retryLoop fuel' retryCount' (snd (sleep (retryDelay cfg) w'))
                  else Some (Thrown (McpError InvalidRequest
                                              (failedAfter retryCount' error)), w')
            | _ =>
                Some (Thrown (McpError InvalidRequest
                                       (failedAfter retryCount error)), w')
            end
        end
    end
  else Some (Thrown (McpError InvalidRequest ERROR_MESSAGES.REFRESH_FAILED), w).

(** [getValidAccessToken] (lines 269-318). *)
Definition getValidAccessToken (w : World) : option (Outcome string * World) :=
  match tokenData w with
  | None => Some (Thrown (McpError InvalidRequest NO_TOKEN_DATA), w)
  | Some td =>
      let refreshThreshold := (thresholdMinutes cfg * 60 * 1000)%Z in
      if (clock w >=? expiresAt td - refreshThreshold)%Z
      then retryLoop (Z.to_nat (maxRetries cfg)) 0
                     (emit (EvConsole ERROR_MESSAGES.TOKEN_EXPIRED) w)
      else Some (Returned (accessToken td), w)
  end.

(** Modelled from the spec: [encryptData] and [decryptData] of
    [security-utils.js], which is not among the sources.  The spec
    describes the store as an authenticated symmetric scheme under one
    operator secret that owns the format of the file: the state that was
    encrypted and written is what reading, parsing and decrypting the file
    gives back.  [storeReadsBack d] says so for the state [d]. *)
Definition storeReadsBack (d : TokenData) : Prop :=
  forall e, encryptData d = Some e ->
    JSON_parse (JSON_stringify e) = Some e /\ decryptData e = Some d.

(** The provider answers every request with HTTP 503. *)
Definition alwaysUnavailable : Prop :=
  forall (n : nat) (refresh_token : string),
  exists latency message body,
    provider n refresh_token =
      (latency,
       Rejected (AxiosError message (Some (mkAxiosResponse 503 body)))).

End Auth.

(** The classification table of the specification (section 4.1), case by
    case: which code and which retryable flag belong to the error that
    [axios.post] was rejected with. *)
Inductive Classified : JsError -> string -> bool -> Prop :=
| Classified_invalid_grant message :
    Classified
      (AxiosError message (Some (mkAxiosResponse 401 (Some "invalid_grant"))))
      "INVALID_GRANT" false
| Classified_rate_limit message body :
    Classified (AxiosError message (Some (mkAxiosResponse 429 body)))
               "RATE_LIMIT" true
| Classified_server_error message code body :
    (500 <= code)%Z ->
    Classified (AxiosError message (Some (mkAxiosResponse code body)))
               "SERVER_ERROR" true
| Classified_network_error message :
    Classified (AxiosError message None) "NETWORK_ERROR" true
| Classified_unknown error :
    (forall message,
        error <> AxiosError message
                   (Some (mkAxiosResponse 401 (Some "invalid_grant")))) ->
    (forall message body,
        error <> AxiosError message (Some (mkAxiosResponse 429 body))) ->
    (forall message code body,
        (500 <= code)%Z ->
        error <> AxiosError message (Some (mkAxiosResponse code body))) ->
    (forall message, error <> AxiosError message None) ->
    Classified error "UNKNOWN_ERROR" true.

(** The error thrown for a 5xx answer (lines 245-249). *)
Definition serverError : JsError :=
  TokenRefreshError ERROR_MESSAGES.SERVER_ERROR "SERVER_ERROR" true.

(** The effects of [n + 1] failed attempts in a row, newest first: a
    request, then [n] times a sleep and a request. *)
Fixpoint attemptsTrace (refresh_token : string) (delay : Z) (n : nat)
  : list Event :=
  match n with
  | O => [EvHttpPost refresh_token]
  | S n' =>
      EvHttpPost refresh_token :: EvSleep delay
        :: attemptsTrace refresh_token delay n'
  end.

(** The failures of [refreshAccessToken] that [getValidAccessToken] does not
    retry: a [TokenRefreshError] that is not retryable, and every error of
    another class. *)
Definition nonRetryable (error : JsError) : Prop :=
  match error with
  | TokenRefreshError _ _ retryable => retryable = false
  | _ => True
  end.

(* ================================================================== *)
(** * A reference deployment

    Concrete collaborators to run the functions on: the configuration of
    [.env.example], a store that prints and parses real text, and providers
    that answer every request the same way. *)
(* ================================================================== *)

Module Demo.

(** [TOKEN_REFRESH_THRESHOLD_MINUTES=5], [MAX_TOKEN_REFRESH_RETRIES=3],
    [TOKEN_REFRESH_RETRY_DELAY_MS=1000]. *)
Definition config : RefreshConfig := mkRefreshConfig 5 3 1000.

(** The numeric values of the SDK's error codes and the message it
    builds from them. *)
Definition codeNumber (code : ErrorCode) : Z :=
  match code with
  | InvalidParams => -32602
  | InvalidRequest => -32600
  | InternalError => -32603
  end.

Definition mcpMessage (code : ErrorCode) (message : string) : string :=
  "MCP error " ++ show_number (codeNumber code) ++ ": " ++ message.

(** A sealed box: the serialized state next to the name of the key that
    sealed it. *)
Record Sealed : Type := mkSealed {
  sealedWith : string;
  sealedText : string
}.

Definition fieldsOf (d : TokenData) :=
  (accessToken d, (refreshToken d, (expiresAt d, (scope d,
    (lastRefreshAttempt d, (refreshAttempts d, codeVerifier d)))))).

Definition ofFields
  (t : string * (string * (Z * (list string *
         (option Z * (option Z * option string))))))
  : TokenData :=
  let '(a, (r, (e, (s, (l, (n, c)))))) := t in mkTokenData a r e s l n c.

Definition encryptWith (key : string) (d : TokenData) : option Sealed :=
  if (key =? EmptyString)%string then None
  else Some (mkSealed key (to_string (fieldsOf d))).

Definition decryptWith (key : string) (box : Sealed) : option TokenData :=
  if (sealedWith box =? key)%string
  then match from_string (sealedText box) with
       | inr t => Some (ofFields t)
       | inl _ => None
       end
  else None.

Definition stringify (box : Sealed) : string :=
  to_string (sealedWith box, sealedText box).

Definition parse (text : string) : option Sealed :=
  match from_string text with
  | inr (k, t) => Some (mkSealed k t)
  | inl _ => None
  end.

Definition key : string := "0123456789abcdef0123456789abcdef".

(** Providers. *)
Definition http (code : Z) (err : option string) : JsError :=
  AxiosError ("Request failed with status code " ++ show_number code)
             (Some (mkAxiosResponse code err)).

Definition unavailable : nat -> string -> N * AxiosReply :=
  fun _ _ => (120%N, Rejected (http 503 None)).

Definition revoked : nat -> string -> N * AxiosReply :=
  fun _ _ => (80%N, Rejected (http 401 (Some "invalid_grant"))).

Definition granting : nat -> string -> N * AxiosReply :=
  fun _ _ => (95%N, Resolved "sl.new" 14400).

(** Token states. *)
Definition issued : TokenData :=
  mkTokenData "sl.old" "rt-1" 1700000000000
              ["files.content.read"; "files.content.write"]
              None None (Some "verifier").

Definition attempted : TokenData :=
  mkTokenData "sl.old" "rt-1" 1700000000000
              ["files.content.read"; "files.content.write"]
              (Some 1700000000000) (Some 1) (Some "verifier").

Definition exhausted : TokenData :=
  mkTokenData "sl.old" "rt-1" 1700000000000
              ["files.content.read"; "files.content.write"]
              (Some 1700000002240) (Some 3) (Some "verifier").

(** A record without a refresh token that carries attempt counters, as
    [saveTokenData] accepts it and [loadTokenData] may read it back. *)
Definition orphaned : TokenData :=
  mkTokenData "sl.static" EmptyString 1700000000000
              ["files.content.read"; "files.content.write"]
              (Some 1700000000000) (Some 3) None.

Definition worldAt (now : Z) (d : TokenData) : World :=
  mkWorld (Some d) Absent true None now 0 [].

(** The same on a disk that is full: the token file holds [old], and a
    write to it fails after [n] bytes. *)
Definition worldOnFullDisk (now : Z) (d : TokenData) (old : string) (n : nat)
  : World :=
  mkWorld (Some d) (Contents old) true (Some n) now 0 [].

Definition refresh (provider : nat -> string -> N * AxiosReply) : Js string :=
  refreshAccessToken config (encryptWith key) stringify mcpMessage provider.

Definition getValid (provider : nat -> string -> N * AxiosReply) :=
  getValidAccessToken config (encryptWith key) stringify mcpMessage provider.

Definition save : TokenData -> Js unit := saveTokenData (encryptWith key) stringify.

Definition load : Js (option TokenData) := loadTokenData (decryptWith key) parse.

End Demo.


(* ================================================================== *)
(** * Notions the further properties speak of *)
(* ================================================================== *)

(** The codes [refreshAccessToken] gives a [TokenRefreshError]. *)
Definition refreshErrorCodes : list string :=
  ["RATE_LIMIT"; "MAX_RETRIES_EXCEEDED"; "INVALID_GRANT"; "SERVER_ERROR";
   "NETWORK_ERROR"; "UNKNOWN_ERROR"].

(** A state whose attempt counter has reached the maximum while it holds a
    refresh token: the next counted attempt exceeds the maximum. *)
Definition lockedOut (cfg : RefreshConfig) (td : TokenData) : Prop :=
  refreshToken td <> EmptyString /\
  (or_zero (refreshAttempts td) >= maxRetries cfg)%Z.

(** How many times a trace shows the retry loop asleep. *)
Fixpoint sleepCount (t : list Event) : nat :=
  match t with
  | [] => O
  | EvSleep _ :: t' => S (sleepCount t')
  | _ :: t' => sleepCount t'
  end.

(** The credentials of a state, apart from its attempt counters. *)
Definition sameCredentials (a b : TokenData) : Prop :=
  accessToken a = accessToken b /\
  refreshToken a = refreshToken b /\
  expiresAt a = expiresAt b /\
  scope a = scope b /\
  codeVerifier a = codeVerifier b.

(** What a write that failed once the file was opened leaves in the token
    file: the first [n] bytes of the encrypted form of a state with the
    refresh token [token]. *)
Definition cutShort {EncryptedTokenData : Type}
           (encryptData : TokenData -> option EncryptedTokenData)
           (JSON_stringify : EncryptedTokenData -> string)
           (n : nat) (token : string) (file : TokenFile) : Prop :=
  exists d e,
    refreshToken d = token /\
    encryptData d = Some e /\
    file = Contents (substring 0 n (JSON_stringify e)).

Section Runs.

Variable cfg : RefreshConfig.
Variable EncryptedTokenData : Type.
Variable encryptData : TokenData -> option EncryptedTokenData.
Variable JSON_stringify : EncryptedTokenData -> string.
Variable mcpMessage : ErrorCode -> string -> string.
Variable provider : nat -> string -> N * AxiosReply.

(** A summary of the four paths: what is thrown or returned, and what the
    world looks like afterwards. *)
Inductive RefreshRun (w : World) : Outcome string -> World -> Prop :=
| Run_guard :
    (tokenData w = None \/
     exists td, tokenData w = Some td /\ refreshToken td = EmptyString) ->
    RefreshRun w (Thrown noRefreshTokenError) w
| Run_cooldown td :
    tokenData w = Some td -> refreshToken td <> EmptyString ->
    inCooldown cfg td (clock w) = true ->
    RefreshRun w (Thrown cooldownError) w
| Run_limit td :
    tokenData w = Some td -> refreshToken td <> EmptyString ->
    inCooldown cfg td (clock w) = false ->
    (or_zero (refreshAttempts td) + 1 > maxRetries cfg)%Z ->
    RefreshRun w (Thrown maxRetriesError)
               (set_tokenData (Some (noteAttempt td (clock w))) w)
| Run_rejected td latency error :
    tokenData w = Some td -> refreshToken td <> EmptyString ->
    inCooldown cfg td (clock w) = false ->
    (or_zero (refreshAttempts td) + 1 <= maxRetries cfg)%Z ->
    provider (requestsSent w) (refreshToken td) = (latency, Rejected error) ->
    RefreshRun w (Thrown (classifyRefreshFailure mcpMessage error))
               (answered (refreshToken td) latency
                  (set_tokenData (Some (noteAttempt td (clock w))) w))
| Run_unsaved td latency access_token expires_in w' :
    tokenData w = Some td -> refreshToken td <> EmptyString ->
    inCooldown cfg td (clock w) = false ->
    (or_zero (refreshAttempts td) + 1 <= maxRetries cfg)%Z ->
    provider (requestsSent w) (refreshToken td)
      = (latency, Resolved access_token expires_in) ->
    saveTokenData encryptData JSON_stringify
      (refreshedTokenData td access_token expires_in
                          (clock w + Z.of_N latency))
      (answered (refreshToken td) latency
         (set_tokenData (Some (noteAttempt td (clock w))) w))
      = (Thrown (McpError InternalError SAVE_FAILED), w') ->
    RefreshRun w (Thrown (classifyRefreshFailure mcpMessage
                            (McpError InternalError SAVE_FAILED)))
               w'
| Run_granted td latency access_token expires_in e :
    tokenData w = Some td -> refreshToken td <> EmptyString ->
    inCooldown cfg td (clock w) = false ->
    (or_zero (refreshAttempts td) + 1 <= maxRetries cfg)%Z ->
    provider (requestsSent w) (refreshToken td)
      = (latency, Resolved access_token expires_in) ->
    encryptData
      (refreshedTokenData td access_token expires_in
                          (clock w + Z.of_N latency)) = Some e ->
    RefreshRun w (Returned access_token)
               (set_tokenData
                  (Some (refreshedTokenData td access_token expires_in
                                            (clock w + Z.of_N latency)))
                  (written (JSON_stringify e)
                     (answered (refreshToken td) latency
                        (set_tokenData (Some (noteAttempt td (clock w))) w)))).

End Runs.

(* ================================================================== *)
(** * Start-up and code exchange *)
(* ================================================================== *)

(** The variables of [process.env] the module reads. *)
Record ProcessEnv : Type := mkProcessEnv {
  DROPBOX_APP_KEY      : option string;
  DROPBOX_APP_SECRET   : option string;
  DROPBOX_REDIRECT_URI : option string;
  DROPBOX_ACCESS_TOKEN : option string
}.

(** [process.env.X || ''] *)
Definition or_empty (v : option string) : string :=
  match v with
  | Some s => s
  | None => EmptyString
  end.

Definition MISSING_ENV :=
  "Missing required environment variables. Please ensure DROPBOX_APP_KEY, DROPBOX_APP_SECRET, and DROPBOX_REDIRECT_URI are set in your .env file.".

(** A variable that is set to a non-empty value. *)
Definition configured (v : option string) : Prop :=
  exists s, v = Some s /\ s <> EmptyString.

(** [s.split(sep)] for a separator of one character: the pieces between
    the separators, one more than there are separators. *)
Fixpoint split (sep : Ascii.ascii) (s : string) : list string :=
  match s with
  | EmptyString => [EmptyString]
  | String c rest =>
      if Ascii.eqb c sep then EmptyString :: split sep rest
      else match split sep rest with
           | piece :: pieces => String c piece :: pieces
           | [] => [String c EmptyString]
           end
  end.

(** What the token endpoint does with an authorization-code grant: a 2xx
    answer, of which the module reads [access_token], [refresh_token],
    [expires_in] and [scope], or a rejection. *)
Inductive ExchangeReply : Type :=
| Issued (access_token refresh_token : string) (expires_in : Z) (scope : string)
| Denied (error : JsError).

Definition EXCHANGE_FAILED := "Failed to exchange authorization code for tokens: ".

Section Startup.

Variable EncryptedTokenData : Type.
Variable encryptData : TokenData -> option EncryptedTokenData.
Variable decryptData : EncryptedTokenData -> option TokenData.
Variable JSON_stringify : EncryptedTokenData -> string.
Variable JSON_parse : string -> option EncryptedTokenData.
Variable mcpMessage : ErrorCode -> string -> string.

(** The token endpoint for the n-th request, carrying the given code and
    verifier; and what [response.data.error_description] reads on an axios
    error that has a response. *)
Variable tokenEndpoint : nat -> string -> string -> N * ExchangeReply.
Variable error_description : JsError -> option string.

(** The top level of the module (lines 30-51): the check of the
    environment and the first value of [tokenData]. *)
Definition loadModule (env : ProcessEnv) : Js unit :=
  let appKey := or_empty (DROPBOX_APP_KEY env) in
  let appSecret := or_empty (DROPBOX_APP_SECRET env) in
  let redirectUri := or_empty (DROPBOX_REDIRECT_URI env) in
  if negb (truthy_string appKey) || negb (truthy_string appSecret)
     || negb (truthy_string redirectUri)
  then throw (McpError InvalidParams MISSING_ENV)
  else
    match DROPBOX_ACCESS_TOKEN env with
    | Some token =>
        if truthy_string token
        then now <- Date_now ;;
             put_tokenData (Some (staticTokenData token now))
        else data <- loadTokenData decryptData JSON_parse ;;
             put_tokenData data
    | None =>
        data <- loadTokenData decryptData JSON_parse ;;
        put_tokenData data
    end.

(** [axios.post('https://api.dropboxapi.com/oauth2/token', ...)] with the
    authorization-code grant (lines 118-135); the request is recorded with
    the code it carries. *)
Definition axios_post_code (code codeVerifier : string)
  : Js (string * string * Z * string) :=
  fun w =>
    let '(latency, reply) := tokenEndpoint (requestsSent w) code codeVerifier in
    let w' := answered code latency w in
    match reply with
    | Issued access_token refresh_token expires_in scope =>
        (Returned (access_token, refresh_token, expires_in, scope), w')
    | Denied error => (Thrown error, w')
    end.

(** The text the [catch] block of [exchangeCodeForTokens] puts after the
    prefix (lines 148-160). *)
Definition exchangeErrorText (error : JsError) : string :=
  match error with
  | AxiosError message response =>
      match response with
      | Some _ =>
          match error_description error with
          | Some description =>
              if truthy_string description then description else message
          | None => message
          end
      | None => message
      end
  | _ => errorMessage mcpMessage error
  end.

(** [exchangeCodeForTokens] (lines 116-162). *)
Definition exchangeCodeForTokens (code codeVerifier : string) : Js TokenData :=
  try_catch
    (response <- axios_post_code code codeVerifier ;;
     let '(access_token, refresh_token, expires_in, scope) := response in
     now <- Date_now ;;
     let tokenData :=
       mkTokenData access_token refresh_token (now + expires_in * 1000)
                   (split " "%char scope) None None (Some codeVerifier) in
     saveTokenData encryptData JSON_stringify tokenData ;;;
     ret tokenData)
    (fun error =>
       console "Error exchanging code for tokens:" ;;;
       throw (McpError InternalError
                       (EXCHANGE_FAILED ++ exchangeErrorText error))).

End Startup.

(* ================================================================== *)
(** * The authorization request *)
(* ================================================================== *)

(** [buffer.toString('base64url')]: six bits a character, in the URL-safe
    alphabet, without padding. *)
Definition base64urlAlphabet : list ascii :=
  list_ascii_of_string
    "ABCDEFGHIJKLMNOPQRSTUVWXYZabcdefghijklmnopqrstuvwxyz0123456789-_".

Definition sextet (i : N) : ascii :=
  nth (N.to_nat i) base64urlAlphabet "A"%char.

Fixpoint base64url (bytes : list Byte.byte) : string :=
  match bytes with
  | [] => EmptyString
  | [a] =>
      let x := Byte.to_N a in
      String (sextet (x / 4)) (String (sextet ((x mod 4) * 16)) EmptyString)
  | [a; b] =>
      let x := Byte.to_N a in
      let y := Byte.to_N b in
      String (sextet (x / 4))
        (String (sextet ((x mod 4) * 16 + y / 16))
           (String (sextet ((y mod 16) * 4)) EmptyString))
  | a :: b :: c :: rest =>
      let x := Byte.to_N a in
      let y := Byte.to_N b in
      let z := Byte.to_N c in
      String (sextet (x / 4))
        (String (sextet ((x mod 4) * 16 + y / 16))
           (String (sextet ((y mod 16) * 4 + z / 64))
              (String (sextet (z mod 64)) (base64url rest))))
  end.

(** The characters RFC 7636 allows in a code verifier: letters, digits,
    [-], [.], [_] and [~]. *)
Definition unreserved (c : ascii) : bool :=
  let n := N_of_ascii c in
  ((48 <=? n) && (n <=? 57) || (65 <=? n) && (n <=? 90)
   || (97 <=? n) && (n <=? 122)
   || (n =? 45) || (n =? 46) || (n =? 95) || (n =? 126))%N.

(** The characters the serializer of [URLSearchParams] leaves as they
    are: letters, digits, [*], [-], [.] and [_]. *)
Definition formSafe (c : ascii) : bool :=
  let n := N_of_ascii c in
  ((48 <=? n) && (n <=? 57) || (65 <=? n) && (n <=? 90)
   || (97 <=? n) && (n <=? 122)
   || (n =? 42) || (n =? 45) || (n =? 46) || (n =? 95))%N.

Definition hexDigit (i : N) : ascii :=
  nth (N.to_nat i) (list_ascii_of_string "0123456789ABCDEF") "0"%char.

(** One byte of a name or value in the query: itself, [+] for a space, or
    a percent escape. *)
Definition formEncode (c : ascii) : string :=
  if formSafe c then String c EmptyString
  else if Ascii.eqb c " "%char then "+"
  else let n := N_of_ascii c in
       String "%"%char
         (String (hexDigit (n / 16)) (String (hexDigit (n mod 16)) EmptyString)).

Fixpoint urlencode (s : string) : string :=
  match s with
  | EmptyString => EmptyString
  | String c rest => formEncode c ++ urlencode rest
  end.

(** [searchParams.toString()]: [name=value] pairs joined by [&]. *)
Definition searchParams (params : list (string * string)) : string :=
  String.concat "&"
    (map (fun p => urlencode (fst p) ++ "=" ++ urlencode (snd p)) params).

(** Every character of a string passes a test. *)
Fixpoint every (p : ascii -> bool) (s : string) : bool :=
  match s with
  | EmptyString => true
  | String c rest => p c && every p rest
  end.

(** The characters an encoded name or value is made of: the ones left as
    they are, [%] and [+]. *)
Definition queryChar (c : ascii) : bool :=
  formSafe c || Ascii.eqb c "%"%char || Ascii.eqb c "+"%char.

(** The object [generatePKCE] returns, and the one [generateAuthUrl]
    returns. *)
Module Pkce.
Record Pair : Type := pair { codeVerifier : string; codeChallenge : string }.
End Pkce.

Module AuthUrl.
Record Request : Type := request { url : string; codeVerifier : string }.
End AuthUrl.

Section Authorization.

(** [createHash('sha256').update(text).digest()], the bytes of the
    digest. *)
Variable sha256 : string -> list Byte.byte.

(** [generatePKCE] (lines 63-69), for the bytes [randomBytes(32)]
    gave. *)
Definition generatePKCE (entropy : list Byte.byte) : Pkce.Pair :=
  let codeVerifier := base64url entropy in
  let codeChallenge := base64url (sha256 codeVerifier) in
  Pkce.pair codeVerifier codeChallenge.

(** [generateAuthUrl] (lines 101-114), for the application key and the
    redirect URI of the environment and the bytes [randomBytes(32)]
    gave. *)
Definition generateAuthUrl (appKey redirectUri : string)
           (entropy : list Byte.byte) : AuthUrl.Request :=
  let pkce := generatePKCE entropy in
  AuthUrl.request
    ("https://www.dropbox.com/oauth2/authorize" ++ "?" ++
     searchParams
       [("client_id", appKey);
        ("response_type", "code");
        ("redirect_uri", redirectUri);
        ("code_challenge", Pkce.codeChallenge pkce);
        ("code_challenge_method", "S256");
        ("token_access_type", "offline")])
    (Pkce.codeVerifier pkce).

End Authorization.

(* ================================================================== *)
(** * The reference deployment, from start-up on *)
(* ================================================================== *)

Module Scenario.

(** An environment for the OAuth flow, and one with a static token. *)
Definition env : ProcessEnv :=
  mkProcessEnv (Some "app-key") (Some "app-secret")
               (Some "http://localhost:3000/callback") None.

Definition envStatic : ProcessEnv :=
  mkProcessEnv (Some "app-key") (Some "app-secret")
               (Some "http://localhost:3000/callback") (Some "sl.static").

(** Token endpoints for the code grant. *)
Definition issuing : nat -> string -> string -> N * ExchangeReply :=
  fun _ _ _ =>
    (150%N,
     Issued "sl.first" "rt-1" 14400 "files.content.read files.content.write").

Definition denying : nat -> string -> string -> N * ExchangeReply :=
  fun _ _ _ => (90%N, Denied (Demo.http 400 (Some "invalid_grant"))).

Definition description (error : JsError) : option string :=
  match error with
  | AxiosError _ (Some _) => Some "code has expired"
  | _ => None
  end.

(** The world a process boots in: no state yet, the clock at [now]. *)
Definition boot (now : Z) (file : TokenFile) : World :=
  mkWorld None file true None now 0 [].

Definition start : ProcessEnv -> Js unit :=
  loadModule (Demo.decryptWith Demo.key) Demo.parse.

Definition exchange (endpoint : nat -> string -> string -> N * ExchangeReply)
  : string -> string -> Js TokenData :=
  exchangeCodeForTokens (Demo.encryptWith Demo.key) Demo.stringify
                        Demo.mcpMessage endpoint description.

(** Thirty-two bytes for [randomBytes(32)], and a stand-in for the digest
    that has the size of a SHA-256 digest. *)
Definition entropy : list Byte.byte :=
  [Byte.x00; Byte.x01; Byte.x02; Byte.x03; Byte.x04; Byte.x05; Byte.x06;
   Byte.x07; Byte.x08; Byte.x09; Byte.x0a; Byte.x0b; Byte.x0c; Byte.x0d;
   Byte.x0e; Byte.x0f; Byte.xf0; Byte.xf1; Byte.xf2; Byte.xf3; Byte.xf4;
   Byte.xf5; Byte.xf6; Byte.xf7; Byte.xf8; Byte.xf9; Byte.xfa; Byte.xfb;
   Byte.xfc; Byte.xfd; Byte.xfe; Byte.xff].


End Scenario.

(* ================================================================== *)
(** * Properties *)
(* ================================================================== *)

Lemma truthy_string_true (s : string) : s <> EmptyString -> truthy_string s = true.
Proof.
  intros H. unfold truthy_string.
  destruct (String.eqb_spec s EmptyString); [contradiction | reflexivity].
Qed.

(** The table assigns one code and one flag to an error. *)
Lemma Classified_functional (error : JsError) (c1 c2 : string) (r1 r2 : bool) :
  Classified error c1 r1 -> Classified error c2 r2 -> c1 = c2 /\ r1 = r2.
Proof.
  intros H1 H2.
  inversion H1; subst; inversion H2; subst;
    try (split; reflexivity); try lia; exfalso;
    match goal with
    | H : forall message, AxiosError _ (Some (mkAxiosResponse 401 _)) <> _ |- _ =>
        solve [eapply H; reflexivity]
    | H : forall message body, AxiosError _ (Some (mkAxiosResponse 429 _)) <> _ |- _ =>
        solve [eapply H; reflexivity]
    | H : forall message code body, (500 <= code)%Z -> AxiosError _ _ <> _ |- _ =>
        solve [eapply H; [eassumption | reflexivity]]
    | H : forall message, AxiosError _ None <> _ |- _ =>
        solve [eapply H; reflexivity]
    end.
Qed.

Lemma attemptsTrace_snoc (refresh_token : string) (delay : Z) (n : nat) :
  attemptsTrace refresh_token delay (S n) =
  (attemptsTrace refresh_token delay n
     ++ [EvSleep delay; EvHttpPost refresh_token])%list.
Proof.
  induction n as [| n IH]; [reflexivity |].
  simpl in *. do 2 f_equal. exact IH.
Qed.

Section AuthProperties.

Variable cfg : RefreshConfig.
Variable EncryptedTokenData : Type.
Variable encryptData : TokenData -> option EncryptedTokenData.
Variable decryptData : EncryptedTokenData -> option TokenData.
Variable JSON_stringify : EncryptedTokenData -> string.
Variable JSON_parse : string -> option EncryptedTokenData.
Variable mcpMessage : ErrorCode -> string -> string.
Variable provider : nat -> string -> N * AxiosReply.

Local Abbreviation refresh :=
  (refreshAccessToken cfg encryptData JSON_stringify mcpMessage provider).
Local Abbreviation request :=
  (requestNewToken encryptData JSON_stringify provider).
Local Abbreviation classify := (classifyRefreshFailure mcpMessage).
Local Abbreviation save := (saveTokenData encryptData JSON_stringify).
Local Abbreviation load := (loadTokenData decryptData JSON_parse).
Local Abbreviation loop :=
  (retryLoop cfg encryptData JSON_stringify mcpMessage provider).
Local Abbreviation getValid :=
  (getValidAccessToken cfg encryptData JSON_stringify mcpMessage provider).
Local Abbreviation unavailable := (alwaysUnavailable provider).

(** ** The paths through [refreshAccessToken] *)

Lemma refresh_without_token_data (w : World) :
  tokenData w = None -> refresh w = (Thrown noRefreshTokenError, w).
Proof.
  intros H. unfold refreshAccessToken, bind, get_tokenData.
  rewrite H. reflexivity.
Qed.

Lemma refresh_without_refresh_token (w : World) (td : TokenData) :
  tokenData w = Some td -> refreshToken td = EmptyString ->
  refresh w = (Thrown noRefreshTokenError, w).
Proof.
  intros H E. unfold refreshAccessToken, bind, get_tokenData.
  rewrite H, E. reflexivity.
Qed.

Lemma refresh_in_cooldown (w : World) (td : TokenData) :
  tokenData w = Some td -> refreshToken td <> EmptyString ->
  inCooldown cfg td (clock w) = true ->
  refresh w = (Thrown cooldownError, w).
Proof.
  intros H E C. unfold refreshAccessToken, bind, get_tokenData, Date_now.
  rewrite H, (truthy_string_true E). simpl. rewrite C. reflexivity.
Qed.

Lemma refresh_over_limit (w : World) (td : TokenData) :
  tokenData w = Some td -> refreshToken td <> EmptyString ->
  inCooldown cfg td (clock w) = false ->
  (or_zero (refreshAttempts td) + 1 > maxRetries cfg)%Z ->
  refresh w =
    (Thrown maxRetriesError,
     set_tokenData (Some (noteAttempt td (clock w))) w).
Proof.
  intros H E C M. unfold refreshAccessToken, bind, get_tokenData, Date_now.
  rewrite H, (truthy_string_true E). simpl. rewrite C. simpl.
  destruct (Z.gtb_spec (or_zero (refreshAttempts td) + 1) (maxRetries cfg));
    [reflexivity | lia].
Qed.

Lemma refresh_contacts_provider (w : World) (td : TokenData) :
  tokenData w = Some td -> refreshToken td <> EmptyString ->
  inCooldown cfg td (clock w) = false ->
  (or_zero (refreshAttempts td) + 1 <= maxRetries cfg)%Z ->
  refresh w =
    try_catch (request (noteAttempt td (clock w)))
              (fun error => throw (classify error))
              (set_tokenData (Some (noteAttempt td (clock w))) w).
Proof.
  intros H E C M. unfold refreshAccessToken, bind, get_tokenData, Date_now.
  rewrite H, (truthy_string_true E). simpl. rewrite C. simpl.
  destruct (Z.gtb_spec (or_zero (refreshAttempts td) + 1) (maxRetries cfg));
    [lia | reflexivity].
Qed.

(** ** The [try] block *)

Lemma request_rejected (td : TokenData) (w : World) (latency : N)
      (error : JsError) :
  provider (requestsSent w) (refreshToken td) = (latency, Rejected error) ->
  request td w = (Thrown error, answered (refreshToken td) latency w).
Proof.
  intros P. unfold requestNewToken, bind, axios_post. rewrite P. reflexivity.
Qed.

Lemma request_resolved (td : TokenData) (w : World) (latency : N)
      (access_token : string) (expires_in : Z) :
  provider (requestsSent w) (refreshToken td)
    = (latency, Resolved access_token expires_in) ->
  let w1 := answered (refreshToken td) latency w in
  let newTokenData := refreshedTokenData td access_token expires_in (clock w1) in
  request td w =
    match save newTokenData w1 with
    | (Returned _, w2) => (Returned access_token, w2)
    | (Thrown e, w2) => (Thrown e, w2)
    end.
Proof.
  intros P. unfold requestNewToken, bind, axios_post, Date_now.
  rewrite P. simpl.
  destruct (saveTokenData _ _ _ _) as [[u | e] w2]; reflexivity.
Qed.

(** ** [saveTokenData] and [loadTokenData] *)

Lemma save_cases (d : TokenData) (w : World) :
  (exists e, encryptData d = Some e /\
             (fsWritable w = true /\ writeFault w = None) /\
             save d w =
               (Returned tt,
                set_tokenData (Some d) (written (JSON_stringify e) w)))
  \/ ((encryptData d = None \/ fsWritable w = false) /\
      save d w =
        (Thrown (McpError InternalError SAVE_FAILED),
         emit (EvConsole "Error saving token data:") w))
  \/ (exists e n,
        encryptData d = Some e /\
        (fsWritable w = true /\ writeFault w = Some n) /\
        save d w =
          (Thrown (McpError InternalError SAVE_FAILED),
           emit (EvConsole "Error saving token data:")
                (written (substring 0 n (JSON_stringify e)) w))).
Proof.
  unfold saveTokenData, try_catch, bind, orThrow, fs_writeFileSync,
    put_tokenData, console, throw, ret.
  destruct (encryptData d) as [e |] eqn:E.
  - destruct (fsWritable w) eqn:F.
    + destruct (writeFault w) as [n |] eqn:W.
      * right; right. exists e, n. auto.
      * left. exists e. auto.
    + right; left. auto.
  - right; left. auto.
Qed.

(** What a save that throws leaves behind: [tokenData] as it was, and
    the token file either as it was or, when the write failed after the
    open, cut down to the part of the new text that reached the disk. *)
Lemma failed_save_frame (d : TokenData) (w w' : World) (error : JsError) :
  save d w = (Thrown error, w') ->
  error = McpError InternalError SAVE_FAILED /\
  tokenData w' = tokenData w /\
  requestsSent w' = requestsSent w /\
  clock w' = clock w /\
  writeFault w' = writeFault w /\
  sleepCount (trace w') = sleepCount (trace w) /\
  (tokenFile w' = tokenFile w \/
   exists n e,
     writeFault w = Some n /\ encryptData d = Some e /\
     tokenFile w' = Contents (substring 0 n (JSON_stringify e))).
Proof.
  intros S.
  destruct (save_cases d w)
    as [(e & _ & _ & X) | [(_ & X) | (e & n & En & (_ & W) & X)]];
    rewrite X in S; [discriminate S | |]; inversion S; subst; clear S;
    do 6 (split; [reflexivity |]).
  - left. reflexivity.
  - right. exists n, e. auto.
Qed.

(** C2: while the stored token does not expire within the refresh
    threshold, [getValidAccessToken] returns the stored access token and
    leaves the whole world as it was: the token state is untouched, no
    request goes to the provider, nothing is written or logged. *)
Theorem fresh_token_is_returned_as_stored (w : World) (td : TokenData) :
  tokenData w = Some td ->
  (expiresAt td - thresholdMinutes cfg * 60 * 1000 > clock w)%Z ->
  getValid w = Some (Returned (accessToken td), w).
Proof.
  intros H Fresh. unfold getValidAccessToken. rewrite H.
  destruct (Z.geb_spec (clock w)
              (expiresAt td - thresholdMinutes cfg * 60 * 1000));
    [lia | reflexivity].
Qed.

(** C3 (amended): when a refresh token is present and the last refresh
    attempt, a non-zero time stamp, is less than the retry delay before
    the current time, [refreshAccessToken] throws the retryable
    [RATE_LIMIT] error of the cooldown check and leaves the world as it
    was: no request is sent. *)
Theorem refresh_in_cooldown_is_rate_limited
        (w : World) (td : TokenData) (last : Z) :
  tokenData w = Some td ->
  refreshToken td <> EmptyString ->
  lastRefreshAttempt td = Some last ->
  last <> 0%Z ->
  (clock w - last < retryDelay cfg)%Z ->
  refresh w =
    (Thrown (TokenRefreshError COOLDOWN "RATE_LIMIT" true), w).
Proof.
  intros H E L NZ Within.
  apply (refresh_in_cooldown w H E).
  unfold inCooldown. rewrite L. simpl.
  destruct (Z.eqb_spec last 0); [contradiction |].
  destruct (Z.ltb_spec (clock w - last) (retryDelay cfg)); [reflexivity | lia].
Qed.

(** ** Every run of [refreshAccessToken] takes one of four paths *)

Lemma refresh_cases (w : World) :
  (refresh w = (Thrown noRefreshTokenError, w))
  \/ (exists td,
        tokenData w = Some td /\ refreshToken td <> EmptyString /\
        inCooldown cfg td (clock w) = true /\
        refresh w = (Thrown cooldownError, w))
  \/ (exists td,
        tokenData w = Some td /\ refreshToken td <> EmptyString /\
        inCooldown cfg td (clock w) = false /\
        (or_zero (refreshAttempts td) + 1 > maxRetries cfg)%Z /\
        refresh w =
          (Thrown maxRetriesError,
           set_tokenData (Some (noteAttempt td (clock w))) w))
  \/ (exists td,
        tokenData w = Some td /\ refreshToken td <> EmptyString /\
        inCooldown cfg td (clock w) = false /\
        (or_zero (refreshAttempts td) + 1 <= maxRetries cfg)%Z /\
        refresh w =
          try_catch (request (noteAttempt td (clock w)))
                    (fun error => throw (classify error))
                    (set_tokenData (Some (noteAttempt td (clock w))) w)).
Proof.
  destruct (tokenData w) as [td |] eqn:H.
  2: { left. now apply refresh_without_token_data. }
  destruct (string_dec (refreshToken td) EmptyString) as [E | E].
  { left. now apply (refresh_without_refresh_token w H). }
  destruct (inCooldown cfg td (clock w)) eqn:C.
  { right; left. exists td. repeat split; auto.
    now apply (refresh_in_cooldown w H E). }
  destruct (Z_gt_le_dec (or_zero (refreshAttempts td) + 1) (maxRetries cfg))
    as [M | M].
  - right; right; left. exists td. repeat split; auto.
    now apply (refresh_over_limit w H E).
  - right; right; right. exists td. repeat split; auto.
    now apply (refresh_contacts_provider w H E).
Qed.

(** What contacting the provider ends in: a rejection, classified; a
    grant that is saved; or a grant that cannot be saved. *)
Lemma contact_cases (td : TokenData) (w : World) :
  let run := try_catch (request td) (fun error => throw (classify error)) w in
  (exists latency error,
      provider (requestsSent w) (refreshToken td) = (latency, Rejected error) /\
      run = (Thrown (classify error), answered (refreshToken td) latency w))
  \/ (exists latency access_token expires_in e,
        provider (requestsSent w) (refreshToken td)
          = (latency, Resolved access_token expires_in) /\
        let w1 := answered (refreshToken td) latency w in
        let newTokenData :=
          refreshedTokenData td access_token expires_in (clock w1) in
        encryptData newTokenData = Some e /\
        run = (Returned access_token,
               set_tokenData (Some newTokenData)
                             (written (JSON_stringify e) w1)))
  \/ (exists latency access_token expires_in unsaved,
        provider (requestsSent w) (refreshToken td)
          = (latency, Resolved access_token expires_in) /\
        save (refreshedTokenData td access_token expires_in
                (clock w + Z.of_N latency))
             (answered (refreshToken td) latency w)
          = (Thrown (McpError InternalError SAVE_FAILED), unsaved) /\
        run = (Thrown (classify (McpError InternalError SAVE_FAILED)),
               unsaved)).
Proof.
  intros run. subst run. unfold try_catch.
  destruct (provider (requestsSent w) (refreshToken td))
    as [latency [access_token expires_in | error]] eqn:P.
  - rewrite (request_resolved td w P). cbv zeta.
    destruct (save_cases
                (refreshedTokenData td access_token expires_in
                   (clock (answered (refreshToken td) latency w)))
                (answered (refreshToken td) latency w))
      as [(e & En & _ & S) | [(_ & S) | (e & n & _ & _ & S)]];
      pose proof S as S'; rewrite S.
    + right; left. exists latency, access_token, expires_in, e. auto.
    + right; right. do 4 eexists. split; [reflexivity |].
      split; [exact S' | reflexivity].
    + right; right. do 4 eexists. split; [reflexivity |].
      split; [exact S' | reflexivity].
  - rewrite (request_rejected td w P).
    left. exists latency, error. auto.
Qed.

Lemma contact_sends_one_request (td : TokenData) (w : World) :
  requestsSent
    (snd (try_catch (request td) (fun error => throw (classify error)) w))
  = S (requestsSent w).
Proof.
  destruct (contact_cases td w)
    as [(latency & error & _ & Y)
       | [(latency & access_token & expires_in & e & _ & _ & Y)
         | (latency & access_token & expires_in & unsaved & _ & Sv & Y)]];
    cbv zeta in Y; rewrite Y; try reflexivity.
  destruct (failed_save_frame _ _ Sv) as (_ & _ & Q & _). exact Q.
Qed.

(** C4 (amended): when a refresh token is present and the cooldown test
    does not fire, [refreshAccessToken] first stores the time stamp and
    the incremented attempt counter; if the incremented counter exceeds
    [maxRetries] it throws the non-retryable [MAX_RETRIES_EXCEEDED] error
    from that state, with no request sent; otherwise the provider is
    contacted from that state, with one request. *)
Theorem refresh_counts_the_attempt_first (w : World) (td : TokenData) :
  tokenData w = Some td ->
  refreshToken td <> EmptyString ->
  inCooldown cfg td (clock w) = false ->
  let attempt := noteAttempt td (clock w) in
  let counted := set_tokenData (Some attempt) w in
  refreshAttempts attempt = Some (or_zero (refreshAttempts td) + 1)%Z /\
  lastRefreshAttempt attempt = Some (clock w) /\
  requestsSent counted = requestsSent w /\
  trace counted = trace w /\
  ((or_zero (refreshAttempts td) + 1 > maxRetries cfg)%Z ->
   refresh w =
     (Thrown (TokenRefreshError ERROR_MESSAGES.REFRESH_FAILED
                                "MAX_RETRIES_EXCEEDED" false),
      counted)) /\
  ((or_zero (refreshAttempts td) + 1 <= maxRetries cfg)%Z ->
   refresh w =
     try_catch (request attempt) (fun error => throw (classify error))
               counted /\
   requestsSent (snd (refresh w)) = S (requestsSent w)).
Proof.
  intros H E C attempt counted.
  split; [reflexivity |]. split; [reflexivity |].
  split; [reflexivity |]. split; [reflexivity |].
  split; intros M.
  - apply (refresh_over_limit w H E C M).
  - rewrite (refresh_contacts_provider w H E C M).
    split; [reflexivity |].
    exact (contact_sends_one_request attempt counted).
Qed.

(** ** The [catch] block against the table *)

Lemma classify_follows_table (error : JsError) :
  exists message code retryable,
    classify error = TokenRefreshError message code retryable /\
    Classified error code retryable.
Proof.
  unfold classifyRefreshFailure.
  destruct error as [c m | m c r | m [[st body] |] | m |];
    try (do 3 eexists; split; [reflexivity |];
         apply Classified_unknown; intros; discriminate).
  - (* an axios error with a response *)
    cbn [status data_error].
    destruct (Z.eqb_spec st 401) as [E401 | N401].
    + destruct body as [b |].
      * destruct (String.eqb_spec b "invalid_grant") as [Eb | Nb].
        -- subst. do 3 eexists. split; [reflexivity | constructor].
        -- simpl. subst st. simpl.
           do 3 eexists. split; [reflexivity |].
           apply Classified_unknown; intros; try discriminate;
             try congruence.
           intros X; inversion X; lia.
      * simpl. subst st. simpl.
        do 3 eexists. split; [reflexivity |].
        apply Classified_unknown; intros; try discriminate.
        intros X; inversion X; lia.
    + simpl.
      destruct (Z.eqb_spec st 429) as [E429 | N429].
      * subst. do 3 eexists. split; [reflexivity | constructor].
      * destruct (Z.geb_spec st 500) as [G | L].
        -- do 3 eexists. split; [reflexivity | constructor; lia].
        -- do 3 eexists. split; [reflexivity |].
           apply Classified_unknown; intros; try discriminate;
             intros X; inversion X; subst; try contradiction; lia.
  - (* an axios error without a response *)
    simpl. do 3 eexists. split; [reflexivity | constructor].
Qed.

Lemma classify_is_not_cooldown (error : JsError) :
  classify error <> cooldownError.
Proof.
  destruct (classify_follows_table error) as (m & c & r & K & T).
  rewrite K. unfold cooldownError.
  intros X. inversion X; subst.
  inversion T; subst; cbv in K; discriminate K.
Qed.

(** C1: when the request reaches the provider and is rejected, the error
    [refreshAccessToken] throws is a [TokenRefreshError] whose code and
    retryable flag are the ones the table gives for the rejection:
    401 with [invalid_grant] is [INVALID_GRANT], not retryable; 429 is
    [RATE_LIMIT], 500 and above [SERVER_ERROR], an axios error without a
    response [NETWORK_ERROR], anything else [UNKNOWN_ERROR], all four
    retryable; and the table gives no other answer. *)
Theorem provider_failure_is_classified
        (w : World) (td : TokenData) (latency : N) (error : JsError) :
  tokenData w = Some td ->
  refreshToken td <> EmptyString ->
  inCooldown cfg td (clock w) = false ->
  (or_zero (refreshAttempts td) + 1 <= maxRetries cfg)%Z ->
  provider (requestsSent w) (refreshToken td) = (latency, Rejected error) ->
  exists message code retryable,
    fst (refresh w) = Thrown (TokenRefreshError message code retryable) /\
    Classified error code retryable /\
    (forall code' retryable',
        Classified error code' retryable' ->
        code' = code /\ retryable' = retryable).
Proof.
  intros H E C M P.
  destruct (classify_follows_table error) as (message & code & retryable & K & T).
  exists message, code, retryable. split; [| split].
  - rewrite (refresh_contacts_provider w H E C M).
    unfold try_catch.
    rewrite (request_rejected (noteAttempt td (clock w))
               (set_tokenData (Some (noteAttempt td (clock w))) w) P).
    unfold throw. simpl. now rewrite K.
  - exact T.
  - intros code' retryable' T'.
    destruct (Classified_functional T' T); auto.
Qed.

(** C5: when [refreshAccessToken] returns, the provider granted the
    token it returns, and the state it leaves in [tokenData] has that
    access token, the expiry [Date.now() + expires_in * 1000] read after
    the answer, [refreshAttempts] 0 and no [lastRefreshAttempt], the other
    fields as before; the token file already holds the encrypted form of
    exactly this state, written after the one request. *)
Theorem successful_refresh_resets_and_persists
        (w w' : World) (token : string) :
  refresh w = (Returned token, w') ->
  exists td latency expires_in e,
    tokenData w = Some td /\
    provider (requestsSent w) (refreshToken td)
      = (latency, Resolved token expires_in) /\
    let now := (clock w + Z.of_N latency)%Z in
    let newTokenData :=
      mkTokenData token (refreshToken td) (now + expires_in * 1000)
                  (scope td) None (Some 0%Z) (codeVerifier td) in
    tokenData w' = Some newTokenData /\
    encryptData newTokenData = Some e /\
    tokenFile w' = Contents (JSON_stringify e) /\
    trace w' = EvWriteFile (JSON_stringify e)
                 :: EvHttpPost (refreshToken td) :: trace w.
Proof.
  intros R.
  destruct (refresh_cases w)
    as [X | [(td & _ & _ & _ & X) | [(td & _ & _ & _ & _ & X)
                                    | (td & H & E & C & M & X)]]];
    rewrite X in R; try discriminate R.
  destruct (contact_cases (noteAttempt td (clock w))
              (set_tokenData (Some (noteAttempt td (clock w))) w))
    as [(latency & error & _ & Y)
       | [(latency & access_token & expires_in & e & P & En & Y)
         | (latency & access_token & expires_in & unsaved & _ & _ & Y)]];
    cbv zeta in Y; rewrite Y in R; try discriminate R.
  inversion R; subst; clear R.
  exists td, latency, expires_in, e.
  repeat split; auto.
Qed.

(** C10: when [refreshAccessToken] throws the error of the cooldown
    check, the world after the call is the world before it: [tokenData],
    with its [refreshAttempts] and [lastRefreshAttempt], is as it was
    (and the call did find the state within the cooldown). *)
Theorem cooldown_failure_changes_nothing (w w' : World) :
  refresh w = (Thrown cooldownError, w') ->
  w' = w /\
  exists td, tokenData w = Some td /\ inCooldown cfg td (clock w) = true.
Proof.
  intros R.
  destruct (refresh_cases w)
    as [X | [(td & H & _ & C & X) | [(td & _ & _ & _ & _ & X)
                                    | (td & _ & _ & _ & _ & X)]]];
    rewrite X in R.
  - discriminate R.
  - inversion R; subst. split; [reflexivity | exists td; auto].
  - discriminate R.
  - exfalso.
    destruct (contact_cases (noteAttempt td (clock w))
                (set_tokenData (Some (noteAttempt td (clock w))) w))
      as [(latency & error & _ & Y)
         | [(latency & access_token & expires_in & e & _ & _ & Y)
           | (latency & access_token & expires_in & unsaved & _ & _ & Y)]];
      cbv zeta in Y; rewrite Y in R; try discriminate R;
      inversion R as [[K W]]; exact (classify_is_not_cooldown _ K).
Qed.

(** C7: in the loop of [getValidAccessToken], a call of
    [refreshAccessToken] that fails with an error that is not retryable
    ends the loop there: an [McpError] carrying the message of the failure
    is thrown from the very world the failed call left, so that no further
    call, request or sleep follows.  The same at the first attempt of
    [getValidAccessToken] itself.  [INVALID_GRANT], [MAX_RETRIES_EXCEEDED]
    and the error of the missing refresh token are such failures. *)
Theorem non_retryable_failure_surfaces_at_once :
  (forall (fuel : nat) (retryCount : Z) (w w' : World) (error : JsError),
      (retryCount < maxRetries cfg)%Z ->
      refresh w = (Thrown error, w') ->
      nonRetryable error ->
      loop (S fuel) retryCount w =
        Some (Thrown (McpError InvalidRequest
                        match error with
                        | TokenRefreshError message _ _ => message
                        | _ => failedAfter mcpMessage retryCount error
                        end), w'))
  /\
  (forall (w w' : World) (td : TokenData) (error : JsError),
      tokenData w = Some td ->
      (clock w >= expiresAt td - thresholdMinutes cfg * 60 * 1000)%Z ->
      (0 < maxRetries cfg)%Z ->
      refresh (emit (EvConsole ERROR_MESSAGES.TOKEN_EXPIRED) w)
        = (Thrown error, w') ->
      nonRetryable error ->
      getValid w =
        Some (Thrown (McpError InvalidRequest
                        match error with
                        | TokenRefreshError message _ _ => message
                        | _ => failedAfter mcpMessage 0 error
                        end), w'))
  /\
  (nonRetryable (TokenRefreshError ERROR_MESSAGES.INVALID_GRANT
                                   "INVALID_GRANT" false) /\
   nonRetryable maxRetriesError /\
   nonRetryable noRefreshTokenError).
Proof.
  assert (A : forall (fuel : nat) (retryCount : Z) (w w' : World)
                     (error : JsError),
             (retryCount < maxRetries cfg)%Z ->
             refresh w = (Thrown error, w') ->
             nonRetryable error ->
             loop (S fuel) retryCount w =
               Some (Thrown (McpError InvalidRequest
                               match error with
                               | TokenRefreshError message _ _ => message
                               | _ => failedAfter mcpMessage retryCount error
                               end), w')).
  { intros fuel retryCount w w' error L R NR.
    cbn [retryLoop].
    destruct (Z.ltb_spec retryCount (maxRetries cfg)); [| lia].
    rewrite R.
    destruct error as [c m | m c r | m resp | m |]; try reflexivity.
    simpl in NR. subst r. reflexivity. }
  split; [exact A |].
  split; [| repeat split].
  intros w w' td error H Stale Pos R NR.
  unfold getValidAccessToken. rewrite H.
  destruct (Z.geb_spec (clock w)
              (expiresAt td - thresholdMinutes cfg * 60 * 1000)); [| lia].
  destruct (Z.to_nat (maxRetries cfg)) as [| fuel] eqn:F; [lia |].
  apply A; auto.
Qed.

(** C8: [loadTokenData] returns [null] when the token file is absent.
    When the file exists and cannot be read, parsed or decrypted, it
    throws the [InternalError] of a failed load; and whenever the file
    exists, whatever it holds, the result is not [null]. *)
Theorem load_is_null_only_without_file (w : World) :
  (tokenFile w = Absent -> load w = (Returned None, w)) /\
  (tokenFile w = Unreadable ->
   load w = (Thrown (McpError InternalError LOAD_FAILED),
             emit (EvConsole "Error loading token data:") w)) /\
  (forall text, tokenFile w = Contents text -> JSON_parse text = None ->
   load w = (Thrown (McpError InternalError LOAD_FAILED),
             emit (EvConsole "Error loading token data:") w)) /\
  (forall text e, tokenFile w = Contents text -> JSON_parse text = Some e ->
   decryptData e = None ->
   load w = (Thrown (McpError InternalError LOAD_FAILED),
             emit (EvConsole "Error loading token data:") w)) /\
  (tokenFile w <> Absent -> fst (load w) <> Returned None).
Proof.
  unfold loadTokenData, try_catch, bind, fs_existsSync, fs_readFileSync,
    orThrow, console, throw, ret.
  split; [| split; [| split; [| split]]].
  - intros F. rewrite F. reflexivity.
  - intros F. repeat (progress (rewrite ?F; simpl)). reflexivity.
  - intros text F P. repeat (progress (rewrite ?F, ?P; simpl)). reflexivity.
  - intros text e F P D.
    repeat (progress (rewrite ?F, ?P, ?D; simpl)). reflexivity.
  - intros F.
    destruct (tokenFile w) as [| | text] eqn:T; [contradiction | |];
      repeat (progress (rewrite ?T; simpl)).
    + discriminate.
    + destruct (JSON_parse text) as [e |]; [| simpl; discriminate].
      destruct (decryptData e); simpl; discriminate.
Qed.

(** C9: for a state the store reads back, once [saveTokenData] has
    returned, [loadTokenData] returns that very state, equal in all its
    fields, and changes nothing, in any world whose token file is the one
    the save left: the world of a later process, where [tokenData] holds
    nothing or another state, as much as the world straight after the
    save. *)
Theorem save_then_load_returns_the_state
        (w w' later : World) (d : TokenData) :
  storeReadsBack encryptData decryptData JSON_stringify JSON_parse d ->
  save d w = (Returned tt, w') ->
  tokenFile later = tokenFile w' ->
  load later = (Returned (Some d), later).
Proof.
  intros Law S Same.
  destruct (save_cases d w)
    as [(e & En & _ & X) | [(_ & X) | (e & n & _ & _ & X)]];
    rewrite X in S; try discriminate S.
  inversion S; subst; clear S.
  destruct (Law e En) as [P D].
  cbn [tokenFile set_tokenData written] in Same.
  unfold loadTokenData, try_catch, bind, fs_existsSync, fs_readFileSync,
    orThrow, ret.
  repeat (progress (rewrite ?Same, ?P, ?D; simpl)). reflexivity.
Qed.

(** ** The loop ends *)

Lemma loop_terminates (fuel : nat) :
  forall (retryCount : Z) (w : World),
    (Z.to_nat (maxRetries cfg - retryCount) <= fuel)%nat ->
    exists r, loop fuel retryCount w = Some r.
Proof.
  induction fuel as [| fuel IH]; intros retryCount w F; cbn [retryLoop];
    destruct (Z.ltb_spec retryCount (maxRetries cfg)) as [L | L];
    try (eexists; reflexivity); try lia.
  destruct (refresh w) as [[token | error] w'];
    [eexists; reflexivity |].
  destruct error as [c m | m c [|] | m resp | m |];
    try (eexists; reflexivity).
  cbn [negb].
  destruct (Z.ltb_spec (retryCount + 1) (maxRetries cfg));
    [| eexists; reflexivity].
  apply IH. lia.
Qed.

Lemma getValidAccessToken_terminates (w : World) :
  exists r, getValid w = Some r.
Proof.
  unfold getValidAccessToken.
  destruct (tokenData w) as [td |]; [| eexists; reflexivity].
  destruct (clock w >=? _)%Z; [| eexists; reflexivity].
  apply loop_terminates. lia.
Qed.

(** ** A provider that is unavailable *)

Lemma refresh_against_unavailable (w : World) (td : TokenData) :
  unavailable ->
  tokenData w = Some td -> refreshToken td <> EmptyString ->
  inCooldown cfg td (clock w) = false ->
  (or_zero (refreshAttempts td) + 1 <= maxRetries cfg)%Z ->
  exists latency,
    refresh w =
      (Thrown serverError,
       answered (refreshToken td) latency
                (set_tokenData (Some (noteAttempt td (clock w))) w)).
Proof.
  intros U H E C M.
  destruct (U (requestsSent w) (refreshToken td))
    as (latency & message & body & P).
  exists latency.
  rewrite (refresh_contacts_provider w H E C M). unfold try_catch.
  rewrite (request_rejected (noteAttempt td (clock w))
             (set_tokenData (Some (noteAttempt td (clock w))) w) P).
  reflexivity.
Qed.

Lemma no_cooldown_after_sleep (td : TokenData) (now : Z) (latency : N) :
  inCooldown cfg (noteAttempt td now)
             (now + Z.of_N latency + Z.max 0 (retryDelay cfg)) = false.
Proof.
  unfold inCooldown. cbn [lastRefreshAttempt noteAttempt or_zero].
  apply andb_false_intro2. apply Z.ltb_ge. lia.
Qed.

Lemma loop_against_unavailable (k : nat) :
  forall (fuel : nat) (retryCount : Z) (w : World) (td : TokenData),
    unavailable ->
    (k <= fuel)%nat ->
    (maxRetries cfg - retryCount = Z.of_nat (S k))%Z ->
    tokenData w = Some td -> refreshToken td <> EmptyString ->
    inCooldown cfg td (clock w) = false ->
    (or_zero (refreshAttempts td) <= retryCount)%Z ->
    exists w',
      loop (S fuel) retryCount w =
        Some (Thrown (McpError InvalidRequest
                        (failedAfter mcpMessage (maxRetries cfg) serverError)),
              w') /\
      requestsSent w' = (requestsSent w + S k)%nat /\
      trace w' =
        (attemptsTrace (refreshToken td) (retryDelay cfg) k ++ trace w)%list.
Proof.
  induction k as [| k IH]; intros fuel retryCount w td U F K H E C A.
  - destruct (refresh_against_unavailable w U H E C) as (latency & R);
      [lia |].
    eexists. cbn [retryLoop].
    destruct (Z.ltb_spec retryCount (maxRetries cfg)); [| lia].
    rewrite R. unfold serverError at 1. cbn [negb].
    destruct (Z.ltb_spec (retryCount + 1) (maxRetries cfg)); [lia |].
    replace (retryCount + 1)%Z with (maxRetries cfg) by lia.
    split; [reflexivity |]. split; [simpl; lia | reflexivity].
  - destruct (refresh_against_unavailable w U H E C) as (latency & R);
      [lia |].
    destruct fuel as [| fuel]; [lia |].
    set (td1 := noteAttempt td (clock w)).
    set (w2 := snd (sleep (retryDelay cfg)
                      (answered (refreshToken td) latency
                                (set_tokenData (Some td1) w)))).
    destruct (IH fuel (retryCount + 1)%Z w2 td1 U) as (w' & L & Q & T);
      try lia; try reflexivity; try assumption.
    + apply no_cooldown_after_sleep.
    + subst td1. simpl. lia.
    + exists w'.
      change (loop (S (S fuel)) retryCount w)
        with (if (retryCount <? maxRetries cfg)%Z
              then match refresh w with
                   | (Returned token, w1) => Some (Returned token, w1)
                   | (Thrown error, w1) =>
                       match error with
                       | TokenRefreshError message _ retryable =>
                           if negb retryable
                           then Some (Thrown (McpError InvalidRequest message), w1)
                           else
                             if (retryCount + 1 <? maxRetries cfg)%Z
                             then loop (S fuel) (retryCount + 1)%Z
                                       (snd (sleep (retryDelay cfg) w1))
                             else Some (Thrown (McpError InvalidRequest
                                                  (failedAfter mcpMessage
                                                     (retryCount + 1) error)), w1)
                       | _ => Some (Thrown (McpError InvalidRequest
                                              (failedAfter mcpMessage
                                                 retryCount error)), w1)
                       end
                   end
              else Some (Thrown (McpError InvalidRequest
                                   ERROR_MESSAGES.REFRESH_FAILED), w)).
      destruct (Z.ltb_spec retryCount (maxRetries cfg)); [| lia].
      rewrite R. unfold serverError at 1. cbn [negb].
      destruct (Z.ltb_spec (retryCount + 1) (maxRetries cfg)); [| lia].
      fold td1. fold w2. rewrite L.
      split; [reflexivity |]. split.
      * rewrite Q. subst w2. simpl. lia.
      * rewrite T, attemptsTrace_snoc, <- app_assoc. reflexivity.
Qed.

(** C6 (amended): with [maxRetries] 3 and a provider that answers every
    request with HTTP 503, when the stored token is stale, holds a refresh
    token, counts no earlier attempt and is not in cooldown,
    [getValidAccessToken] sends exactly three requests, sleeps
    [retryDelay] between one and the next and not after the last, and
    throws a refresh-failure error that names the three attempts. *)
Theorem three_attempts_against_unavailable_provider
        (w : World) (td : TokenData) :
  maxRetries cfg = 3%Z ->
  unavailable ->
  tokenData w = Some td ->
  (clock w >= expiresAt td - thresholdMinutes cfg * 60 * 1000)%Z ->
  refreshToken td <> EmptyString ->
  or_zero (refreshAttempts td) = 0%Z ->
  inCooldown cfg td (clock w) = false ->
  exists w',
    getValid w =
      Some (Thrown (McpError InvalidRequest
                      ("Token refresh failed after 3 attempts: "
                         ++ ERROR_MESSAGES.SERVER_ERROR)), w') /\
    requestsSent w' = (requestsSent w + 3)%nat /\
    trace w' =
      EvHttpPost (refreshToken td) :: EvSleep (retryDelay cfg)
        :: EvHttpPost (refreshToken td) :: EvSleep (retryDelay cfg)
        :: EvHttpPost (refreshToken td)
        :: EvConsole ERROR_MESSAGES.TOKEN_EXPIRED :: trace w.
Proof.
  intros Max U H Stale E A C.
  unfold getValidAccessToken. rewrite H.
  destruct (Z.geb_spec (clock w)
              (expiresAt td - thresholdMinutes cfg * 60 * 1000)); [| lia].
  rewrite Max. change (Z.to_nat 3) with 3%nat.
  destruct (@loop_against_unavailable 2 2 0%Z
              (emit (EvConsole ERROR_MESSAGES.TOKEN_EXPIRED) w) td U)
    as (w' & L & Q & T); auto; try lia.
  exists w'. rewrite L, Max. auto.
Qed.

End AuthProperties.

(* ================================================================== *)
(** * The properties on the reference deployment *)
(* ================================================================== *)

(** The provider is down when the issued token has just expired: the
    rejection is classified as a retryable [SERVER_ERROR]. *)
Lemma provider_failure_is_classified_on_outage :
  exists message code retryable,
    fst (Demo.refresh Demo.unavailable (Demo.worldAt 1700000000000 Demo.issued))
      = Thrown (TokenRefreshError message code retryable) /\
    Classified (Demo.http 503 None) code retryable /\
    (forall code' retryable',
        Classified (Demo.http 503 None) code' retryable' ->
        code' = code /\ retryable' = retryable).
Proof.
  apply (provider_failure_is_classified
           Demo.config (Demo.encryptWith Demo.key) Demo.stringify
           Demo.mcpMessage Demo.unavailable
           (Demo.worldAt 1700000000000 Demo.issued)
           (td := Demo.issued) (latency := 120%N)).
  - reflexivity.
  - discriminate.
  - reflexivity.
  - vm_compute. discriminate.
  - reflexivity.
Defined.

(** Ten minutes before expiry the stored token is handed out. *)
Lemma fresh_token_is_returned_ten_minutes_early :
  Demo.getValid Demo.unavailable (Demo.worldAt 1699999400000 Demo.issued)
    = Some (Returned "sl.old", Demo.worldAt 1699999400000 Demo.issued).
Proof.
  apply (fresh_token_is_returned_as_stored
           Demo.config (Demo.encryptWith Demo.key) Demo.stringify
           Demo.mcpMessage Demo.unavailable
           (Demo.worldAt 1699999400000 Demo.issued) (td := Demo.issued)).
  - reflexivity.
  - vm_compute. reflexivity.
Defined.

(** Half a second after an attempt, the next one is turned away. *)
Lemma refresh_half_a_second_after_attempt_is_rate_limited :
  Demo.refresh Demo.unavailable (Demo.worldAt 1700000000500 Demo.attempted)
    = (Thrown (TokenRefreshError COOLDOWN "RATE_LIMIT" true),
       Demo.worldAt 1700000000500 Demo.attempted).
Proof.
  apply (refresh_in_cooldown_is_rate_limited
           Demo.config (Demo.encryptWith Demo.key) Demo.stringify
           Demo.mcpMessage Demo.unavailable
           (Demo.worldAt 1700000000500 Demo.attempted)
           (td := Demo.attempted) (last := 1700000000000)).
  - reflexivity.
  - discriminate.
  - reflexivity.
  - discriminate.
  - vm_compute. reflexivity.
Defined.

(** C3, as stated, fails: a state without a refresh token whose last attempt
    lies half a second back is within the cooldown window, and
    [refreshAccessToken] throws the [McpError] of its first check, not a
    [RATE_LIMIT] error. *)
Lemma cooldown_is_preceded_by_refresh_token_check :
  let w := Demo.worldAt 1700000000500 Demo.orphaned in
  tokenData w = Some Demo.orphaned /\
  lastRefreshAttempt Demo.orphaned = Some 1700000000000%Z /\
  (1700000000000 <= clock w < 1700000000000 + retryDelay Demo.config)%Z /\
  Demo.refresh Demo.unavailable w
    = (Thrown (McpError InvalidRequest NO_REFRESH_TOKEN), w) /\
  ~ (exists message w',
        Demo.refresh Demo.unavailable w
          = (Thrown (TokenRefreshError message "RATE_LIMIT" true), w')).
Proof.
  cbv zeta. repeat split; try (vm_compute; congruence).
  intros (message & w' & R). vm_compute in R. discriminate R.
Qed.

(** A last attempt stamped 0 reads as no attempt: the cooldown test does
    not fire on it, whatever the clock shows. *)
Example zero_time_stamp_reads_as_unset :
  inCooldown Demo.config
             (mkTokenData "sl.old" "rt-1" 0 [] (Some 0%Z) (Some 1%Z) None)
             500 = false.
Proof. reflexivity. Qed.

(** A minute after the third failed attempt, the fourth is counted and
    refused without a request. *)
Lemma refresh_counts_the_fourth_attempt :
  let w := Demo.worldAt 1700000060000 Demo.exhausted in
  let attempt := noteAttempt Demo.exhausted 1700000060000 in
  let counted := set_tokenData (Some attempt) w in
  refreshAttempts attempt = Some 4%Z /\
  requestsSent counted = requestsSent w /\
  Demo.refresh Demo.unavailable w
    = (Thrown (TokenRefreshError ERROR_MESSAGES.REFRESH_FAILED
                                 "MAX_RETRIES_EXCEEDED" false), counted).
Proof.
  cbv zeta.
  destruct (refresh_counts_the_attempt_first
              Demo.config (Demo.encryptWith Demo.key) Demo.stringify
              Demo.mcpMessage Demo.unavailable
              (Demo.worldAt 1700000060000 Demo.exhausted)
              (td := Demo.exhausted))
    as (A & _ & Q & _ & Over & _).
  - reflexivity.
  - discriminate.
  - reflexivity.
  - split; [exact A |]. split; [exact Q |].
    apply Over. vm_compute. reflexivity.
Defined.

(** C4, as stated, fails.  The state the module starts with under
    [DROPBOX_ACCESS_TOKEN] has no refresh token: four hours later it is
    outside the cooldown window, and [refreshAccessToken] throws the
    [McpError] of its first check and counts nothing.  The same for a state
    without a refresh token that counts three attempts: the incremented
    counter would exceed the maximum of three, and the error is still that
    of the first check, not [MAX_RETRIES_EXCEEDED]. *)
Lemma attempt_is_not_counted_without_refresh_token :
  let start := staticTokenData "sl.static" 1700000000000 in
  let w0 := Demo.worldAt 1700014400000 start in
  let w := Demo.worldAt 1700000060000 Demo.orphaned in
  (inCooldown Demo.config start (clock w0) = false /\
   refreshAttempts start = None /\
   Demo.refresh Demo.unavailable w0
     = (Thrown (McpError InvalidRequest NO_REFRESH_TOKEN), w0)) /\
  (inCooldown Demo.config Demo.orphaned (clock w) = false /\
   (or_zero (refreshAttempts Demo.orphaned) + 1 > maxRetries Demo.config)%Z /\
   Demo.refresh Demo.unavailable w
     = (Thrown (McpError InvalidRequest NO_REFRESH_TOKEN), w)) /\
  ~ (exists message w',
        Demo.refresh Demo.unavailable w
          = (Thrown (TokenRefreshError message "MAX_RETRIES_EXCEEDED" false),
             w')) /\
  ~ (exists r w' td',
        Demo.refresh Demo.unavailable w0 = (r, w') /\
        tokenData w' = Some td' /\
        refreshAttempts td' = Some 1%Z).
Proof.
  cbv zeta. repeat split; try (vm_compute; congruence).
  - intros (message & w' & R). vm_compute in R. discriminate R.
  - intros (r & w' & td' & R & T & A). vm_compute in R.
    inversion R; subst. vm_compute in T. inversion T; subst.
    vm_compute in A. discriminate A.
Qed.

(** The provider grants a new token for four hours. *)
Lemma successful_refresh_on_grant :
  let w := Demo.worldAt 1700000000000 Demo.issued in
  let w' := snd (Demo.refresh Demo.granting w) in
  exists td latency expires_in e,
    tokenData w = Some td /\
    Demo.granting (requestsSent w) (refreshToken td)
      = (latency, Resolved "sl.new" expires_in) /\
    let now := (clock w + Z.of_N latency)%Z in
    let newTokenData :=
      mkTokenData "sl.new" (refreshToken td) (now + expires_in * 1000)
                  (scope td) None (Some 0%Z) (codeVerifier td) in
    tokenData w' = Some newTokenData /\
    Demo.encryptWith Demo.key newTokenData = Some e /\
    tokenFile w' = Contents (Demo.stringify e) /\
    trace w' = EvWriteFile (Demo.stringify e)
                 :: EvHttpPost (refreshToken td) :: trace w.
Proof.
  cbv zeta.
  apply (successful_refresh_resets_and_persists
           Demo.config (Demo.encryptWith Demo.key) Demo.stringify
           Demo.mcpMessage Demo.granting
           (Demo.worldAt 1700000000000 Demo.issued)).
  vm_compute. reflexivity.
Defined.

(** The outage of the scenario: three requests, two sleeps of a second. *)
Lemma three_attempts_on_outage :
  let w := Demo.worldAt 1700000000000 Demo.issued in
  exists w',
    Demo.getValid Demo.unavailable w =
      Some (Thrown (McpError InvalidRequest
                      ("Token refresh failed after 3 attempts: "
                         ++ ERROR_MESSAGES.SERVER_ERROR)), w') /\
    requestsSent w' = (requestsSent w + 3)%nat /\
    trace w' =
      EvHttpPost "rt-1" :: EvSleep 1000 :: EvHttpPost "rt-1"
        :: EvSleep 1000 :: EvHttpPost "rt-1"
        :: EvConsole ERROR_MESSAGES.TOKEN_EXPIRED :: trace w.
Proof.
  cbv zeta.
  apply (three_attempts_against_unavailable_provider
           Demo.config (Demo.encryptWith Demo.key) Demo.stringify
           Demo.mcpMessage (provider := Demo.unavailable)
           (Demo.worldAt 1700000000000 Demo.issued) (td := Demo.issued)).
  - reflexivity.
  - intros n refresh_token. do 3 eexists. reflexivity.
  - reflexivity.
  - vm_compute. discriminate.
  - discriminate.
  - reflexivity.
  - reflexivity.
Defined.

(** C6, as stated, fails: the state the failed call of the scenario leaves
    counts three attempts; a minute later the token is still stale and the
    provider still answers 503, yet [getValidAccessToken] sends no request
    and does not sleep: the fourth attempt exceeds the maximum and the error
    is thrown at once. *)
Lemma no_attempt_is_left_after_a_failed_call :
  (exists r w1,
      Demo.getValid Demo.unavailable (Demo.worldAt 1700000000000 Demo.issued)
        = Some (r, w1) /\
      tokenData w1 = Some Demo.exhausted) /\
  let w := Demo.worldAt 1700000060000 Demo.exhausted in
  (clock w >= expiresAt Demo.exhausted
              - thresholdMinutes Demo.config * 60 * 1000)%Z /\
  maxRetries Demo.config = 3%Z /\
  alwaysUnavailable Demo.unavailable /\
  (exists w',
      Demo.getValid Demo.unavailable w =
        Some (Thrown (McpError InvalidRequest ERROR_MESSAGES.REFRESH_FAILED),
              w') /\
      requestsSent w' = requestsSent w /\
      trace w' = EvConsole ERROR_MESSAGES.TOKEN_EXPIRED :: trace w) /\
  ~ (exists r w',
        Demo.getValid Demo.unavailable w = Some (r, w') /\
        requestsSent w' = (requestsSent w + 3)%nat).
Proof.
  split; [do 2 eexists; split; vm_compute; reflexivity |].
  cbv zeta. repeat split.
  - vm_compute. discriminate.
  - intros n refresh_token. do 3 eexists. reflexivity.
  - eexists. repeat split; vm_compute; reflexivity.
  - intros (r & w' & R & Q). vm_compute in R.
    inversion R; subst. vm_compute in Q. discriminate Q.
Qed.

(** A revoked refresh token: the first attempt ends the call. *)
Lemma revoked_token_surfaces_at_once :
  let w := Demo.worldAt 1700000000000 Demo.issued in
  Demo.getValid Demo.revoked w =
    Some (Thrown (McpError InvalidRequest ERROR_MESSAGES.INVALID_GRANT),
          snd (Demo.refresh Demo.revoked
                 (emit (EvConsole ERROR_MESSAGES.TOKEN_EXPIRED) w))).
Proof.
  cbv zeta.
  apply (proj1 (proj2 (non_retryable_failure_surfaces_at_once
                  Demo.config (Demo.encryptWith Demo.key) Demo.stringify
                  Demo.mcpMessage Demo.revoked))
               (Demo.worldAt 1700000000000 Demo.issued)
               (snd (Demo.refresh Demo.revoked
                       (emit (EvConsole ERROR_MESSAGES.TOKEN_EXPIRED)
                             (Demo.worldAt 1700000000000 Demo.issued))))
               Demo.issued
               (TokenRefreshError ERROR_MESSAGES.INVALID_GRANT
                                  "INVALID_GRANT" false)).
  - reflexivity.
  - vm_compute. discriminate.
  - reflexivity.
  - vm_compute. reflexivity.
  - reflexivity.
Defined.

(** A token file that is not what the store wrote. *)
Lemma load_of_corrupted_file_throws :
  let w := mkWorld None (Contents "{ not what the store wrote") true None
                   1700000000000 0 [] in
  Demo.load w =
    (Thrown (McpError InternalError LOAD_FAILED),
     emit (EvConsole "Error loading token data:") w).
Proof.
  cbv zeta.
  apply (proj1 (proj2 (proj2 (load_is_null_only_without_file
                                (Demo.decryptWith Demo.key) Demo.parse
                                (mkWorld None (Contents "{ not what the store wrote")
                                         true None 1700000000000 0 []))))
               "{ not what the store wrote").
  - reflexivity.
  - vm_compute. reflexivity.
Defined.

(** The reference store reads back the issued state in a later process,
    which starts with nothing in [tokenData]. *)
Lemma save_then_load_on_reference_store :
  let w := Demo.worldAt 1700000000000 Demo.attempted in
  let later := mkWorld None (tokenFile (snd (Demo.save Demo.issued w)))
                       true None 1700003600000 0 [] in
  Demo.load later = (Returned (Some Demo.issued), later).
Proof.
  cbv zeta.
  apply (save_then_load_returns_the_state
           (encryptData := Demo.encryptWith Demo.key)
           (decryptData := Demo.decryptWith Demo.key)
           (JSON_stringify := Demo.stringify)
           (JSON_parse := Demo.parse)
           (Demo.worldAt 1700000000000 Demo.attempted)
           (w' := snd (Demo.save Demo.issued
                         (Demo.worldAt 1700000000000 Demo.attempted)))).
  - intros e En. vm_compute in En. inversion En; subst; clear En.
    split; vm_compute; reflexivity.
  - vm_compute. reflexivity.
  - reflexivity.
Defined.

(** Half a second after an attempt, the refused call leaves no mark. *)
Lemma cooldown_failure_changes_nothing_after_attempt :
  let w := Demo.worldAt 1700000000500 Demo.attempted in
  snd (Demo.refresh Demo.unavailable w) = w /\
  exists td,
    tokenData w = Some td /\ inCooldown Demo.config td (clock w) = true.
Proof.
  cbv zeta.
  apply (cooldown_failure_changes_nothing
           Demo.config (Demo.encryptWith Demo.key) Demo.stringify
           Demo.mcpMessage Demo.unavailable
           (Demo.worldAt 1700000000500 Demo.attempted)).
  vm_compute. reflexivity.
Defined.

(* ================================================================== *)
(** * Further properties of the refresh path *)
(* ================================================================== *)

(** Splits conjunctions only. *)
Ltac conjs := repeat match goal with |- _ /\ _ => split end.

Section AuthFurther.

Variable cfg : RefreshConfig.
Variable EncryptedTokenData : Type.
Variable encryptData : TokenData -> option EncryptedTokenData.
Variable decryptData : EncryptedTokenData -> option TokenData.
Variable JSON_stringify : EncryptedTokenData -> string.
Variable JSON_parse : string -> option EncryptedTokenData.
Variable mcpMessage : ErrorCode -> string -> string.
Variable provider : nat -> string -> N * AxiosReply.

Local Abbreviation refresh :=
  (refreshAccessToken cfg encryptData JSON_stringify mcpMessage provider).
Local Abbreviation request :=
  (requestNewToken encryptData JSON_stringify provider).
Local Abbreviation classify := (classifyRefreshFailure mcpMessage).
Local Abbreviation save := (saveTokenData encryptData JSON_stringify).
Local Abbreviation load := (loadTokenData decryptData JSON_parse).
Local Abbreviation loop :=
  (retryLoop cfg encryptData JSON_stringify mcpMessage provider).
Local Abbreviation getValid :=
  (getValidAccessToken cfg encryptData JSON_stringify mcpMessage provider).
Local Abbreviation Run :=
  (RefreshRun cfg encryptData JSON_stringify mcpMessage provider).

(** ** What one call of [refreshAccessToken] can do *)

Lemma refresh_runs (w : World) :
  Run w (fst (refresh w)) (snd (refresh w)).
Proof.
  destruct (tokenData w) as [td0 |] eqn:H0.
  2: { rewrite (refresh_without_token_data cfg encryptData JSON_stringify
                  mcpMessage provider w H0).
       apply Run_guard. auto. }
  destruct (string_dec (refreshToken td0) EmptyString) as [E0 | E0].
  { rewrite (refresh_without_refresh_token cfg encryptData JSON_stringify
               mcpMessage provider w H0 E0).
    apply Run_guard. right. eauto. }
  destruct (inCooldown cfg td0 (clock w)) eqn:C.
  { rewrite (refresh_in_cooldown cfg encryptData JSON_stringify
               mcpMessage provider w H0 E0 C).
    eapply Run_cooldown; eauto. }
  destruct (Z_gt_le_dec (or_zero (refreshAttempts td0) + 1) (maxRetries cfg))
    as [M | M].
  { rewrite (refresh_over_limit cfg encryptData JSON_stringify
               mcpMessage provider w H0 E0 C M).
    eapply Run_limit; eauto. }
  rewrite (refresh_contacts_provider cfg encryptData JSON_stringify
             mcpMessage provider w H0 E0 C M).
  destruct (contact_cases encryptData JSON_stringify mcpMessage provider
              (noteAttempt td0 (clock w))
              (set_tokenData (Some (noteAttempt td0 (clock w))) w))
    as [(latency & error & P & Y)
       | [(latency & access_token & expires_in & e & P & En & Y)
         | (latency & access_token & expires_in & unsaved & P & Sv & Y)]];
    cbv zeta in *; rewrite Y; cbn [fst snd];
    change (refreshToken (noteAttempt td0 (clock w))) with (refreshToken td0)
      in *;
    change (requestsSent (set_tokenData (Some (noteAttempt td0 (clock w))) w))
      with (requestsSent w) in *.
  - apply Run_rejected with (td := td0); auto; exact P.
  - change (refreshedTokenData (noteAttempt td0 (clock w)) access_token
              expires_in
              (clock (answered (refreshToken td0) latency
                        (set_tokenData (Some (noteAttempt td0 (clock w))) w))))
      with (refreshedTokenData td0 access_token expires_in
              (clock w + Z.of_N latency)) in *.
    apply Run_granted with (td := td0); auto.
  - apply Run_unsaved with (td := td0) (latency := latency)
                          (access_token := access_token)
                          (expires_in := expires_in); auto.
Qed.

Lemma refresh_run (w w' : World) (r : Outcome string) :
  refresh w = (r, w') -> Run w r w'.
Proof.
  intros R. generalize (refresh_runs w). rewrite R. auto.
Qed.

(** What every run has in common. *)
Lemma run_frame (w w' : World) (r : Outcome string) (td : TokenData) :
  Run w r w' -> tokenData w = Some td ->
  (requestsSent w <= requestsSent w' <= S (requestsSent w))%nat /\
  sleepCount (trace w') = sleepCount (trace w) /\
  (clock w <= clock w')%Z /\
  exists td',
    tokenData w' = Some td' /\
    refreshToken td' = refreshToken td /\
    scope td' = scope td /\
    codeVerifier td' = codeVerifier td /\
    (forall e, r = Thrown e ->
       accessToken td' = accessToken td /\
       expiresAt td' = expiresAt td /\
       (tokenFile w' = tokenFile w \/
        exists n, writeFault w = Some n /\
                  cutShort encryptData JSON_stringify n (refreshToken td)
                           (tokenFile w')) /\
       (or_zero (refreshAttempts td') - or_zero (refreshAttempts td)
        >= Z.of_nat (requestsSent w') - Z.of_nat (requestsSent w))%Z /\
       (or_zero (refreshAttempts td) <= or_zero (refreshAttempts td'))%Z).
Proof.
  intros R H.
  destruct R as [G | t H' E C | t H' E C M | t l er H' E C M P
                | t l a x w2 H' E C M P Sv | t l a x e H' E C M P En];
    try (rewrite H' in H; inversion H; subst t; clear H).
  5: { destruct (@failed_save_frame _ encryptData JSON_stringify _ _ _ _ Sv)
         as (_ & T & Q & K & _ & SC & F).
       cbn [requestsSent trace clock tokenData tokenFile writeFault
            set_tokenData answered emit written sleepCount] in T, Q, K, SC, F.
       rewrite Q, K, SC.
       split; [lia |]. split; [reflexivity |]. split; [lia |].
       exists (noteAttempt td (clock w)). split; [exact T |].
       cbn [noteAttempt refreshToken scope codeVerifier accessToken expiresAt
            refreshAttempts or_zero].
       conjs; auto; try lia.
       intros _ _. conjs; auto; try lia.
       destruct F as [F | (n & en & W & En & F)]; [left; exact F |].
       right. exists n. split; [exact W |].
       exists (refreshedTokenData td a x (clock w + Z.of_N l)), en.
       conjs; auto. }
  all: cbn [requestsSent trace clock tokenData tokenFile set_tokenData
            answered emit written sleepCount];
    (split; [lia |]); (split; [reflexivity |]); (split; [lia |]).
  - exists td. repeat split; auto; lia.
  - exists td. repeat split; auto; lia.
  - eexists. split; [reflexivity |].
    cbn [noteAttempt refreshToken scope codeVerifier accessToken expiresAt
         refreshAttempts or_zero].
    repeat split; auto; lia.
  - eexists. split; [reflexivity |].
    cbn [noteAttempt refreshToken scope codeVerifier accessToken expiresAt
         refreshAttempts or_zero].
    repeat split; auto; lia.
  - eexists. split; [reflexivity |].
    cbn [refreshedTokenData refreshToken scope codeVerifier].
    repeat split; auto; discriminate.
Qed.

(** No run touches what the disk does to a write. *)
Lemma run_keeps_fault (w w' : World) (r : Outcome string) :
  Run w r w' -> writeFault w' = writeFault w.
Proof.
  intros R.
  destruct R as [G | t H' E C | t H' E C M | t l er H' E C M P
                | t l a x w2 H' E C M P Sv | t l a x e H' E C M P En];
    try reflexivity.
  destruct (@failed_save_frame _ encryptData JSON_stringify _ _ _ _ Sv)
    as (_ & _ & _ & _ & W & _).
  exact W.
Qed.

Lemma run_returned (w w' : World) (token : string) :
  Run w (Returned token) w' ->
  exists td' e,
    tokenData w' = Some td' /\
    accessToken td' = token /\
    refreshAttempts td' = Some 0%Z /\
    lastRefreshAttempt td' = None /\
    encryptData td' = Some e /\
    tokenFile w' = Contents (JSON_stringify e).
Proof.
  intros R. inversion R; subst.
  do 2 eexists. split; [reflexivity |]. repeat split; eauto.
Qed.

(** ** What one call of [getValidAccessToken] can do *)

Lemma sleep_frame (ms : Z) (w : World) :
  let w' := snd (sleep ms w) in
  tokenData w' = tokenData w /\ tokenFile w' = tokenFile w /\
  requestsSent w' = requestsSent w /\
  sleepCount (trace w') = S (sleepCount (trace w)).
Proof. cbv zeta. repeat split. Qed.

Lemma loop_frame (fuel : nat) :
  forall (retryCount : Z) (w w' : World) (r : Outcome string) (td : TokenData),
    loop fuel retryCount w = Some (r, w') ->
    tokenData w = Some td ->
    (requestsSent w <= requestsSent w'
     <= requestsSent w + Z.to_nat (maxRetries cfg - retryCount))%nat /\
    (sleepCount (trace w') <= sleepCount (trace w)
                              + Z.to_nat (maxRetries cfg - retryCount - 1))%nat /\
    exists td',
      tokenData w' = Some td' /\
      refreshToken td' = refreshToken td /\
      scope td' = scope td /\
      codeVerifier td' = codeVerifier td /\
      (forall e, r = Thrown e ->
         (exists message, e = McpError InvalidRequest message) /\
         accessToken td' = accessToken td /\
         expiresAt td' = expiresAt td /\
         (tokenFile w' = tokenFile w \/
          exists n, writeFault w = Some n /\
                    cutShort encryptData JSON_stringify n (refreshToken td)
                             (tokenFile w')) /\
         (or_zero (refreshAttempts td') - or_zero (refreshAttempts td)
          >= Z.of_nat (requestsSent w') - Z.of_nat (requestsSent w))%Z) /\
      (forall token, r = Returned token ->
         accessToken td' = token /\
         refreshAttempts td' = Some 0%Z /\
         lastRefreshAttempt td' = None /\
         exists e, encryptData td' = Some e /\
                   tokenFile w' = Contents (JSON_stringify e)).
Proof.
  induction fuel as [| fuel IH]; intros retryCount w w' r td L H;
    cbn [retryLoop] in L;
    destruct (Z.ltb_spec retryCount (maxRetries cfg)) as [Lt | Ge];
    try discriminate L.
  - (* the loop is not entered *)
    inversion L; subst; clear L.
    split; [lia |]. split; [lia |].
    exists td. conjs; auto; try discriminate; try lia.
    intros e X. inversion X. conjs; eauto; lia.
  - (* one iteration *)
    destruct (refresh w) as [[token | error] w1] eqn:R.
    + (* refreshed *)
      inversion L; subst; clear L.
      pose proof (@refresh_run _ _ _ R) as Rn.
      destruct (run_frame Rn H) as (Q & S & _ & td' & T & F1 & F2 & F3 & _).
      destruct (run_returned Rn) as (td2 & e & T2 & A1 & A2 & A3 & A4 & A5).
      rewrite T in T2. inversion T2; subst td2.
      split; [lia |]. split; [lia |].
      exists td'. conjs; auto; try discriminate.
      intros tk X. inversion X; subst. conjs; eauto.
    + pose proof (@refresh_run _ _ _ R) as Rn.
      destruct (run_frame Rn H)
        as (Q & S & _ & td1 & T & F1 & F2 & F3 & Fe).
      destruct (Fe error eq_refl) as (G1 & G2 & G3 & G4 & _).
      assert (Stop : forall message,
                 L = L ->
                 Some (@Thrown string (McpError InvalidRequest message), w1)
                   = Some (r, w') ->
                 (requestsSent w <= requestsSent w'
                  <= requestsSent w + Z.to_nat (maxRetries cfg - retryCount))%nat /\
                 (sleepCount (trace w') <= sleepCount (trace w)
                    + Z.to_nat (maxRetries cfg - retryCount - 1))%nat /\
                 exists td',
                   tokenData w' = Some td' /\
                   refreshToken td' = refreshToken td /\
                   scope td' = scope td /\
                   codeVerifier td' = codeVerifier td /\
                   (forall e, r = Thrown e ->
                      (exists message, e = McpError InvalidRequest message) /\
                      accessToken td' = accessToken td /\
                      expiresAt td' = expiresAt td /\
                      (tokenFile w' = tokenFile w \/
                       exists n, writeFault w = Some n /\
                                 cutShort encryptData JSON_stringify n
                                          (refreshToken td) (tokenFile w')) /\
                      (or_zero (refreshAttempts td')
                         - or_zero (refreshAttempts td)
                       >= Z.of_nat (requestsSent w')
                          - Z.of_nat (requestsSent w))%Z) /\
                   (forall token, r = Returned token ->
                      accessToken td' = token /\
                      refreshAttempts td' = Some 0%Z /\
                      lastRefreshAttempt td' = None /\
                      exists e, encryptData td' = Some e /\
                                tokenFile w' = Contents (JSON_stringify e))).
      { intros message _ X. inversion X; subst; clear X.
        split; [lia |]. split; [lia |].
        exists td1. conjs; auto; try discriminate.
        intros e X. inversion X. conjs; eauto. }
      destruct error as [c m | m c [|] | m resp | m |];
        try (apply (Stop _ eq_refl L)).
      cbn [negb] in L.
      destruct (Z.ltb_spec (retryCount + 1) (maxRetries cfg)) as [Lt' | Ge'];
        [| apply (Stop _ eq_refl L)].
      destruct (sleep_frame (retryDelay cfg) w1) as (ST & SF & SQ & SS).
      rewrite T in ST.
      destruct (IH _ _ _ _ td1 L ST)
        as (Q' & S' & td' & T' & K1 & K2 & K3 & Ke & Kr).
      rewrite SQ in Q'. rewrite SS in S'.
      split; [lia |]. split; [lia |].
      exists td'. split; [exact T' |].
      split; [congruence |]. split; [congruence |]. split; [congruence |].
      split.
      * intros e X. destruct (Ke e X) as (M1 & M2 & M3 & M4 & M5).
        split; [exact M1 |]. split; [congruence |]. split; [congruence |].
        split; [| rewrite SQ in M5; lia].
        pose proof (run_keeps_fault Rn) as W.
        change (writeFault (snd (sleep (retryDelay cfg) w1)))
          with (writeFault w1) in M4.
        rewrite SF, W, F1 in M4.
        destruct M4 as [M4 | M4]; [| right; exact M4].
        rewrite M4. exact G3.
      * exact Kr.
  - (* the loop is not entered *)
    inversion L; subst; clear L.
    split; [lia |]. split; [lia |].
    exists td. conjs; auto; try discriminate; try lia.
    intros e X. inversion X. conjs; eauto; lia.
Qed.

Lemma Classified_codes (error : JsError) (code : string) (retryable : bool) :
  Classified error code retryable ->
  In code refreshErrorCodes /\
  (retryable = false <-> code = "INVALID_GRANT").
Proof.
  intros K. inversion K; subst; (split; [simpl; auto 10 |]);
    split; intros X; try discriminate X; reflexivity.
Qed.


(** X2: whatever goes wrong inside, [refreshAccessToken] throws either the
    [McpError] of the missing refresh token or a [TokenRefreshError] with
    one of six codes; of these only [INVALID_GRANT] and
    [MAX_RETRIES_EXCEEDED] are not retryable.  An axios error or the error
    of a failed save never leaves the function as it is. *)
Theorem refresh_throws_only_its_own_errors (w w' : World) (e : JsError) :
  refresh w = (Thrown e, w') ->
  e = McpError InvalidRequest NO_REFRESH_TOKEN \/
  exists message code retryable,
    e = TokenRefreshError message code retryable /\
    In code refreshErrorCodes /\
    (retryable = false <->
     code = "INVALID_GRANT" \/ code = "MAX_RETRIES_EXCEEDED").
Proof.
  intros R. pose proof (@refresh_run _ _ _ R) as Rn.
  assert (Cl : forall error,
             exists message code retryable,
               classify error = TokenRefreshError message code retryable /\
               In code refreshErrorCodes /\
               (retryable = false <->
                code = "INVALID_GRANT" \/ code = "MAX_RETRIES_EXCEEDED")).
  { intros error.
    destruct (classify_follows_table mcpMessage error)
      as (m & c & b & K & T).
    destruct (Classified_codes T) as (I & F).
    exists m, c, b. conjs; auto. split.
    - intros X. left. now apply F.
    - intros [X | X]; [now apply F |].
      subst c. inversion T. }
  remember (Thrown e) as r eqn:Er.
  destruct Rn as [G | t H' E C | t H' E C M | t l er H' E C M P
                 | t l a x H' E C M P | t l a x en H' E C M P En];
    try discriminate Er; injection Er as <-.
  - left. reflexivity.
  - right. exists COOLDOWN, "RATE_LIMIT", true.
    conjs; [reflexivity | simpl; auto 10 |].
    split; [discriminate | intros [X | X]; discriminate X].
  - right. exists ERROR_MESSAGES.REFRESH_FAILED, "MAX_RETRIES_EXCEEDED", false.
    conjs; [reflexivity | simpl; auto 10 |].
    split; auto.
  - right. exact (Cl er).
  - right. exact (Cl (McpError InternalError SAVE_FAILED)).
Qed.

(** X3: every error [getValidAccessToken] throws is an [McpError] with
    the code [InvalidRequest]: a [TokenRefreshError] never reaches the
    caller. *)
Theorem getValidAccessToken_throws_invalid_request
        (w w' : World) (e : JsError) :
  getValid w = Some (Thrown e, w') ->
  exists message, e = McpError InvalidRequest message.
Proof.
  unfold getValidAccessToken.
  destruct (tokenData w) as [td |] eqn:H.
  - destruct (clock w >=? _)%Z.
    + intros L.
      destruct (loop_frame _ _ _ L (td := td) H)
        as (_ & _ & td' & _ & _ & _ & _ & Ke & _).
      destruct (Ke e eq_refl) as (M & _). exact M.
    + discriminate.
  - intros X. inversion X. eauto.
Qed.

(** X4: a call of [getValidAccessToken] ends, and on the way it sends at
    most [maxRetries] requests to the provider and sleeps at most
    [maxRetries - 1] times. *)
Theorem getValidAccessToken_bounds_its_effects (w : World) :
  exists r w',
    getValid w = Some (r, w') /\
    (requestsSent w <= requestsSent w'
     <= requestsSent w + Z.to_nat (maxRetries cfg))%nat /\
    (sleepCount (trace w') <= sleepCount (trace w)
                              + Z.to_nat (maxRetries cfg - 1))%nat.
Proof.
  destruct (getValidAccessToken_terminates cfg encryptData JSON_stringify
              mcpMessage provider w) as ([r w'] & G).
  exists r, w'. split; [exact G |].
  revert G. unfold getValidAccessToken.
  destruct (tokenData w) as [td |] eqn:H.
  - destruct (clock w >=? _)%Z.
    + intros L.
      destruct (loop_frame _ _ _ L (td := td) H) as (Q & S & _).
      cbn [requestsSent trace emit sleepCount] in Q, S.
      replace (maxRetries cfg - 0)%Z with (maxRetries cfg) in * by lia.
      split; [exact Q | exact S].
    + intros X. inversion X; subst. split; lia.
  - intros X. inversion X; subst. split; lia.
Qed.

(** X5: [saveTokenData] sets [tokenData] only once the file is written.
    Either the encrypted state is in the token file and the state is in
    [tokenData]; or the [InternalError] of a failed save is thrown with
    [tokenData] as before.  In that case the token file is as before too
    when the encryption or the opening of the file failed; when the write
    failed once the file was opened, the old contents are gone and the
    file holds the part of the new text that reached the disk. *)
Theorem save_updates_memory_after_the_file (d : TokenData) (w : World) :
  (exists e w',
      save d w = (Returned tt, w') /\
      encryptData d = Some e /\
      fsWritable w = true /\ writeFault w = None /\
      tokenFile w' = Contents (JSON_stringify e) /\
      tokenData w' = Some d)
  \/
  (exists w',
      save d w = (Thrown (McpError InternalError SAVE_FAILED), w') /\
      (encryptData d = None \/ fsWritable w = false) /\
      tokenFile w' = tokenFile w /\
      tokenData w' = tokenData w)
  \/
  (exists e n w',
      save d w = (Thrown (McpError InternalError SAVE_FAILED), w') /\
      encryptData d = Some e /\
      fsWritable w = true /\ writeFault w = Some n /\
      tokenFile w' = Contents (substring 0 n (JSON_stringify e)) /\
      tokenData w' = tokenData w).
Proof.
  destruct (save_cases encryptData JSON_stringify d w)
    as [(e & En & (F & W) & S) | [(F & S) | (e & n & En & (F & W) & S)]].
  - left. exists e. eexists. split; [exact S |]. conjs; auto.
  - right; left. eexists. split; [exact S |]. conjs; auto.
  - right; right. exists e, n. eexists. split; [exact S |]. conjs; auto.
Qed.

(** X6: the token [getValidAccessToken] returns is the access token
    [tokenData] holds after the call: either nothing happened, or the
    state was refreshed, its counters are reset and the token file holds
    its encrypted form. *)
Theorem returned_token_is_the_stored_one (w w' : World) (token : string) :
  getValid w = Some (Returned token, w') ->
  exists td',
    tokenData w' = Some td' /\
    accessToken td' = token /\
    (w' = w \/
     (refreshAttempts td' = Some 0%Z /\
      lastRefreshAttempt td' = None /\
      exists e, encryptData td' = Some e /\
                tokenFile w' = Contents (JSON_stringify e))).
Proof.
  unfold getValidAccessToken.
  destruct (tokenData w) as [td |] eqn:H; [| discriminate].
  destruct (clock w >=? _)%Z.
  - intros L.
    destruct (loop_frame _ _ _ L (td := td) H)
      as (_ & _ & td' & T & _ & _ & _ & _ & Kr).
    destruct (Kr token eq_refl) as (A1 & A2 & A3 & A4).
    exists td'. conjs; auto.
  - intros X. inversion X; subst. exists td. conjs; auto.
Qed.

(** ** The lock-out *)

Lemma refresh_locked_out (w : World) (td : TokenData) :
  tokenData w = Some td ->
  lockedOut cfg td ->
  exists e w' td',
    refresh w = (Thrown e, w') /\
    (e = cooldownError \/ e = maxRetriesError) /\
    requestsSent w' = requestsSent w /\
    tokenFile w' = tokenFile w /\
    sleepCount (trace w') = sleepCount (trace w) /\
    tokenData w' = Some td' /\
    lockedOut cfg td' /\
    sameCredentials td' td.
Proof.
  intros H [E A].
  destruct (inCooldown cfg td (clock w)) eqn:C.
  - rewrite (refresh_in_cooldown cfg encryptData JSON_stringify mcpMessage
               provider w H E C).
    exists cooldownError, w, td. unfold lockedOut, sameCredentials.
    conjs; auto.
  - rewrite (refresh_over_limit cfg encryptData JSON_stringify mcpMessage
               provider w H E C); [| lia].
    do 3 eexists. split; [reflexivity |].
    unfold lockedOut, sameCredentials.
    cbn [requestsSent tokenFile trace tokenData set_tokenData noteAttempt
         refreshToken refreshAttempts or_zero accessToken expiresAt scope
         codeVerifier].
    conjs; auto. simpl. lia.
Qed.

Lemma loop_locked_out (fuel : nat) :
  forall (retryCount : Z) (w w' : World) (r : Outcome string) (td : TokenData),
    loop fuel retryCount w = Some (r, w') ->
    tokenData w = Some td ->
    lockedOut cfg td ->
    (exists message, r = Thrown (McpError InvalidRequest message)) /\
    requestsSent w' = requestsSent w /\
    tokenFile w' = tokenFile w /\
    exists td',
      tokenData w' = Some td' /\ lockedOut cfg td' /\ sameCredentials td' td.
Proof.
  assert (Same : forall td, sameCredentials td td)
    by (intros; unfold sameCredentials; conjs; reflexivity).
  induction fuel as [| fuel IH]; intros retryCount w w' r td L H K;
    cbn [retryLoop] in L;
    destruct (Z.ltb_spec retryCount (maxRetries cfg)) as [Lt | Ge];
    try discriminate L.
  - inversion L; subst; clear L. conjs; eauto.
  - destruct (refresh_locked_out w H K)
      as (e & w1 & td1 & R & [Ee | Ee] & Q & F & _ & T & K1 & S1);
      rewrite R in L; subst e.
    + (* cooldown: retryable *)
      cbn [cooldownError negb] in L.
      destruct (Z.ltb_spec (retryCount + 1) (maxRetries cfg)) as [Lt' | Ge'].
      * destruct (sleep_frame (retryDelay cfg) w1) as (ST & SF & SQ & _).
        rewrite T in ST.
        destruct (IH _ _ _ _ td1 L ST K1)
          as (M & Q' & F' & td' & T' & K' & S').
        split; [exact M |]. split; [congruence |]. split; [congruence |].
        exists td'. conjs; auto.
        unfold sameCredentials in *.
        destruct S' as (a1 & a2 & a3 & a4 & a5).
        destruct S1 as (b1 & b2 & b3 & b4 & b5).
        conjs; congruence.
      * inversion L; subst; clear L. conjs; eauto.
    + (* the limit: not retryable *)
      cbn [maxRetriesError negb] in L.
      inversion L; subst; clear L. conjs; eauto.
  - inversion L; subst; clear L. conjs; eauto.
Qed.

(** X7: once the attempt counter has reached [maxRetries],
    [refreshAccessToken] no longer contacts the provider: it throws the
    error of the cooldown or of the limit, sends nothing, and the state it
    leaves is locked out again, with the same credentials.  Nothing in the
    refresh path resets the counter: that takes a successful refresh. *)
Theorem locked_out_refresh_sends_nothing (w : World) (td : TokenData) :
  tokenData w = Some td ->
  refreshToken td <> EmptyString ->
  (or_zero (refreshAttempts td) >= maxRetries cfg)%Z ->
  exists e w' td',
    refresh w = (Thrown e, w') /\
    (e = TokenRefreshError COOLDOWN "RATE_LIMIT" true \/
     e = TokenRefreshError ERROR_MESSAGES.REFRESH_FAILED
                           "MAX_RETRIES_EXCEEDED" false) /\
    requestsSent w' = requestsSent w /\
    tokenFile w' = tokenFile w /\
    tokenData w' = Some td' /\
    refreshToken td' <> EmptyString /\
    (or_zero (refreshAttempts td') >= maxRetries cfg)%Z /\
    sameCredentials td' td.
Proof.
  intros H E A.
  destruct (refresh_locked_out w H (conj E A))
    as (e & w' & td' & R & D & Q & F & _ & T & [E' A'] & S).
  exists e, w', td'. conjs; auto.
Qed.

(** X8: with a stale token in a state that is locked out,
    [getValidAccessToken] throws an [InvalidRequest] error without sending
    a single request, and leaves a state that is locked out again. *)
Theorem locked_out_call_sends_nothing (w : World) (td : TokenData) :
  tokenData w = Some td ->
  refreshToken td <> EmptyString ->
  (or_zero (refreshAttempts td) >= maxRetries cfg)%Z ->
  (clock w >= expiresAt td - thresholdMinutes cfg * 60 * 1000)%Z ->
  exists message w' td',
    getValid w = Some (Thrown (McpError InvalidRequest message), w') /\
    requestsSent w' = requestsSent w /\
    tokenFile w' = tokenFile w /\
    tokenData w' = Some td' /\
    refreshToken td' <> EmptyString /\
    (or_zero (refreshAttempts td') >= maxRetries cfg)%Z /\
    sameCredentials td' td.
Proof.
  intros H E A Stale.
  destruct (getValidAccessToken_terminates cfg encryptData JSON_stringify
              mcpMessage provider w) as ([r w'] & G).
  pose proof G as G'. revert G'. unfold getValidAccessToken. rewrite H.
  destruct (Z.geb_spec (clock w)
              (expiresAt td - thresholdMinutes cfg * 60 * 1000)); [| lia].
  intros L.
  destruct (loop_locked_out _ _ _ L (td := td) H (conj E A))
    as ((message & M) & Q & F & td' & T & [E' A'] & S).
  subst r. exists message, w', td'. conjs; auto.
Qed.

(** X9: an outage locks the state out.  With any [maxRetries] of at least
    one and a provider that answers every request with HTTP 503, a call of
    [getValidAccessToken] on a stale state that holds a refresh token,
    counts no attempt and is not in cooldown sends exactly [maxRetries]
    requests, fails, and leaves the attempt counter at [maxRetries] or
    more. *)
Theorem outage_ends_in_lock_out (w : World) (td : TokenData) :
  (1 <= maxRetries cfg)%Z ->
  alwaysUnavailable provider ->
  tokenData w = Some td ->
  (clock w >= expiresAt td - thresholdMinutes cfg * 60 * 1000)%Z ->
  refreshToken td <> EmptyString ->
  or_zero (refreshAttempts td) = 0%Z ->
  inCooldown cfg td (clock w) = false ->
  exists message w' td',
    getValid w = Some (Thrown (McpError InvalidRequest message), w') /\
    requestsSent w' = (requestsSent w + Z.to_nat (maxRetries cfg))%nat /\
    tokenData w' = Some td' /\
    refreshToken td' <> EmptyString /\
    (or_zero (refreshAttempts td') >= maxRetries cfg)%Z.
Proof.
  intros Pos U H Stale E A C.
  unfold getValidAccessToken. rewrite H.
  destruct (Z.geb_spec (clock w)
              (expiresAt td - thresholdMinutes cfg * 60 * 1000)); [| lia].
  destruct (Z.to_nat (maxRetries cfg)) as [| k] eqn:Ek; [lia |].
  destruct (@loop_against_unavailable cfg _ encryptData JSON_stringify
              mcpMessage provider k k 0%Z
              (emit (EvConsole ERROR_MESSAGES.TOKEN_EXPIRED) w) td U)
    as (w' & L & Q & _); auto; try lia.
  destruct (loop_frame _ _ _ L (td := td) H)
    as (_ & _ & td' & T & F1 & _ & _ & Ke & _).
  destruct (Ke _ eq_refl) as (_ & _ & _ & _ & Cnt).
  cbn [requestsSent emit] in Q, Cnt.
  do 3 eexists. split; [exact L |].
  split; [exact Q |]. split; [exact T |].
  split; [rewrite F1; exact E | lia].
Qed.

(** X10: a token that was just refreshed is handed out without a further
    request as long as its lifetime exceeds the refresh threshold: when
    [refreshAccessToken] has returned a token the provider granted for
    [expires_in] seconds and [expires_in * 1000] is more than the
    threshold, [getValidAccessToken], called at once, returns the same
    token and changes nothing. *)
Theorem refreshed_token_is_fresh
        (w w' : World) (td : TokenData) (token access_token : string)
        (latency : N) (expires_in : Z) :
  tokenData w = Some td ->
  provider (requestsSent w) (refreshToken td)
    = (latency, Resolved access_token expires_in) ->
  refresh w = (Returned token, w') ->
  (expires_in * 1000 > thresholdMinutes cfg * 60 * 1000)%Z ->
  getValid w' = Some (Returned token, w').
Proof.
  intros H P R Long.
  pose proof (@refresh_run _ _ _ R) as Rn.
  remember (Returned token) as r eqn:Er.
  destruct Rn as [G | t H' E C | t H' E C M | t l er H' E C M P'
                 | t l a x H' E C M P' | t l a x en H' E C M P' En];
    try discriminate Er.
  injection Er as <-.
  rewrite H' in H. inversion H; subst t; clear H.
  rewrite P' in P. inversion P; subst; clear P.
  unfold getValidAccessToken.
  cbn [tokenData set_tokenData clock written answered refreshedTokenData
       expiresAt accessToken].
  destruct (Z.geb_spec (clock w + Z.of_N latency)
              (clock w + Z.of_N latency + expires_in * 1000
               - thresholdMinutes cfg * 60 * 1000)); [lia | reflexivity].
Qed.

End AuthFurther.

(* ================================================================== *)
(** * Properties of start-up and code exchange *)
(* ================================================================== *)

Lemma split_not_empty (sep : ascii) (s : string) : split sep s <> [].
Proof.
  destruct s as [| c rest]; simpl; [discriminate |].
  destruct (Ascii.eqb c sep); [discriminate |].
  destruct (split sep rest); discriminate.
Qed.

Lemma concat_split (sep : ascii) (s : string) :
  String.concat (String sep EmptyString) (split sep s) = s.
Proof.
  induction s as [| c rest IH]; [reflexivity |].
  simpl. destruct (Ascii.eqb_spec c sep) as [-> | N].
  - pose proof (split_not_empty sep rest) as NE.
    destruct (split sep rest) as [| piece pieces] eqn:S; [contradiction |].
    change (String.concat (String sep EmptyString)
                          (EmptyString :: piece :: pieces))
      with (String sep (String.concat (String sep EmptyString)
                                      (piece :: pieces))).
    now rewrite IH.
  - pose proof (split_not_empty sep rest) as NE.
    destruct (split sep rest) as [| piece pieces] eqn:S; [contradiction |].
    destruct pieces as [| piece' pieces'].
    + simpl in *. now rewrite IH.
    + change (String.concat (String sep EmptyString)
                            (String c piece :: piece' :: pieces'))
        with (String c (piece ++ String sep EmptyString
                          ++ String.concat (String sep EmptyString)
                                           (piece' :: pieces'))).
      change (String.concat (String sep EmptyString)
                            (piece :: piece' :: pieces'))
        with (piece ++ String sep EmptyString
                ++ String.concat (String sep EmptyString)
                                 (piece' :: pieces')) in IH.
      now rewrite IH.
Qed.

Lemma truthy_configured (v : option string) :
  truthy_string (or_empty v) = true <-> configured v.
Proof.
  unfold configured, truthy_string. split.
  - destruct v as [s |]; simpl.
    + destruct (String.eqb_spec s EmptyString); [discriminate |].
      intros _. eauto.
    + discriminate.
  - intros (s & -> & N). simpl.
    destruct (String.eqb_spec s EmptyString); [contradiction | reflexivity].
Qed.

Section StartupProperties.

Variable cfg : RefreshConfig.
Variable EncryptedTokenData : Type.
Variable encryptData : TokenData -> option EncryptedTokenData.
Variable decryptData : EncryptedTokenData -> option TokenData.
Variable JSON_stringify : EncryptedTokenData -> string.
Variable JSON_parse : string -> option EncryptedTokenData.
Variable mcpMessage : ErrorCode -> string -> string.
Variable provider : nat -> string -> N * AxiosReply.
Variable tokenEndpoint : nat -> string -> string -> N * ExchangeReply.
Variable error_description : JsError -> option string.

Local Abbreviation refresh :=
  (refreshAccessToken cfg encryptData JSON_stringify mcpMessage provider).
Local Abbreviation save := (saveTokenData encryptData JSON_stringify).
Local Abbreviation load := (loadTokenData decryptData JSON_parse).
Local Abbreviation getValid :=
  (getValidAccessToken cfg encryptData JSON_stringify mcpMessage provider).
Local Abbreviation start := (loadModule decryptData JSON_parse).
Local Abbreviation exchange :=
  (exchangeCodeForTokens encryptData JSON_stringify mcpMessage tokenEndpoint
                         error_description).
Local Abbreviation errorText :=
  (exchangeErrorText mcpMessage error_description).

(** ** Start-up *)

Lemma start_checks_environment (env : ProcessEnv) (w : World) :
  (configured (DROPBOX_APP_KEY env) /\
   configured (DROPBOX_APP_SECRET env) /\
   configured (DROPBOX_REDIRECT_URI env) ->
   start env w =
     match DROPBOX_ACCESS_TOKEN env with
     | Some token =>
         if truthy_string token
         then (Returned tt,
               set_tokenData (Some (staticTokenData token (clock w))) w)
         else bind load (fun data => put_tokenData data) w
     | None => bind load (fun data => put_tokenData data) w
     end) /\
  (~ (configured (DROPBOX_APP_KEY env) /\
      configured (DROPBOX_APP_SECRET env) /\
      configured (DROPBOX_REDIRECT_URI env)) ->
   start env w = (Thrown (McpError InvalidParams MISSING_ENV), w)).
Proof.
  unfold loadModule.
  destruct (truthy_string (or_empty (DROPBOX_APP_KEY env))) eqn:K;
    destruct (truthy_string (or_empty (DROPBOX_APP_SECRET env))) eqn:S;
    destruct (truthy_string (or_empty (DROPBOX_REDIRECT_URI env))) eqn:U;
    cbn [negb orb]; split;
    try (intros (CK & CS & CU);
         apply truthy_configured in CK; apply truthy_configured in CS;
         apply truthy_configured in CU; congruence);
    try (intros _; reflexivity).
  - intros _. destruct (DROPBOX_ACCESS_TOKEN env) as [token |];
      [destruct (truthy_string token) |]; reflexivity.
  - intros N. exfalso. apply N.
    split; [| split]; apply truthy_configured; assumption.
Qed.

Lemma load_frame (w : World) :
  tokenData (snd (load w)) = tokenData w /\
  tokenFile (snd (load w)) = tokenFile w /\
  requestsSent (snd (load w)) = requestsSent w /\
  clock (snd (load w)) = clock w /\
  forall message,
    fst (load w) <> Thrown (McpError InvalidParams message).
Proof.
  unfold loadTokenData, try_catch, bind, fs_existsSync, fs_readFileSync,
    orThrow, console, throw, ret.
  destruct (tokenFile w) as [| | text] eqn:T;
    repeat (progress (rewrite ?T; simpl)).
  - conjs; auto; discriminate.
  - conjs; auto; discriminate.
  - destruct (JSON_parse text) as [e |]; simpl;
      [destruct (decryptData e); simpl |]; conjs; auto; discriminate.
Qed.

(** X11: the module refuses to start unless [DROPBOX_APP_KEY],
    [DROPBOX_APP_SECRET] and [DROPBOX_REDIRECT_URI] are all set and not
    empty: then, and only then, start-up throws an [InvalidParams] error,
    and it does so before anything is read or changed. *)
Theorem startup_requires_the_three_settings (env : ProcessEnv) (w : World) :
  (configured (DROPBOX_APP_KEY env) /\
   configured (DROPBOX_APP_SECRET env) /\
   configured (DROPBOX_REDIRECT_URI env) ->
   forall message,
     fst (start env w) <> Thrown (McpError InvalidParams message)) /\
  (~ (configured (DROPBOX_APP_KEY env) /\
      configured (DROPBOX_APP_SECRET env) /\
      configured (DROPBOX_REDIRECT_URI env)) ->
   start env w = (Thrown (McpError InvalidParams MISSING_ENV), w)).
Proof.
  destruct (start_checks_environment env w) as [Ok Bad].
  split; [| exact Bad].
  intros C message. rewrite (Ok C).
  destruct (load_frame w) as (_ & _ & _ & _ & NL).
  assert (B : fst (bind load (fun data => put_tokenData data) w)
              <> Thrown (McpError InvalidParams message)).
  { unfold bind. specialize (NL message).
    destruct (load w) as [[d | e] w1]; simpl in *;
      [discriminate | congruence]. }
  destruct (DROPBOX_ACCESS_TOKEN env) as [token |];
    [destruct (truthy_string token) |]; auto.
  simpl. discriminate.
Qed.

Lemma call_without_refresh_token (w : World) (td : TokenData) :
  tokenData w = Some td ->
  refreshToken td = EmptyString ->
  ((clock w < expiresAt td - thresholdMinutes cfg * 60 * 1000)%Z ->
   getValid w = Some (Returned (accessToken td), w)) /\
  ((clock w >= expiresAt td - thresholdMinutes cfg * 60 * 1000)%Z ->
   (1 <= maxRetries cfg)%Z ->
   getValid w =
     Some (Thrown (McpError InvalidRequest
                     (failedAfter mcpMessage 0 noRefreshTokenError)),
           emit (EvConsole ERROR_MESSAGES.TOKEN_EXPIRED) w)) /\
  ((clock w >= expiresAt td - thresholdMinutes cfg * 60 * 1000)%Z ->
   (maxRetries cfg < 1)%Z ->
   getValid w =
     Some (Thrown (McpError InvalidRequest ERROR_MESSAGES.REFRESH_FAILED),
           emit (EvConsole ERROR_MESSAGES.TOKEN_EXPIRED) w)).
Proof.
  intros H E. unfold getValidAccessToken. rewrite H.
  destruct (Z.geb_spec (clock w)
              (expiresAt td - thresholdMinutes cfg * 60 * 1000));
    (split; [| split]); try (intros; lia); try reflexivity.
  - intros _ Pos.
    destruct (Z.to_nat (maxRetries cfg)) as [| fuel] eqn:F; [lia |].
    cbn [retryLoop].
    destruct (Z.ltb_spec 0 (maxRetries cfg)); [| lia].
    rewrite (refresh_without_refresh_token cfg encryptData JSON_stringify
               mcpMessage provider
               (emit (EvConsole ERROR_MESSAGES.TOKEN_EXPIRED) w) H E).
    reflexivity.
  - intros _ Neg.
    destruct (Z.to_nat (maxRetries cfg)) as [| fuel] eqn:F;
      cbn [retryLoop];
      destruct (Z.ltb_spec 0 (maxRetries cfg)); try lia; reflexivity.
Qed.

(** X12: started with [DROPBOX_ACCESS_TOKEN], the module does not look at
    the token file, and serves that token for four hours less the refresh
    threshold: [getValidAccessToken] returns it, unchanged and without a
    request, at any time before; from then on, the token having no refresh
    token, every call fails with an [InvalidRequest] error that reports
    zero attempts, again without a request. *)
Theorem static_token_is_served_for_four_hours
        (env : ProcessEnv) (w : World) (token : string) :
  configured (DROPBOX_APP_KEY env) ->
  configured (DROPBOX_APP_SECRET env) ->
  configured (DROPBOX_REDIRECT_URI env) ->
  DROPBOX_ACCESS_TOKEN env = Some token ->
  token <> EmptyString ->
  exists w1,
    start env w = (Returned tt, w1) /\
    tokenFile w1 = tokenFile w /\
    trace w1 = trace w /\
    forall later : Z,
      ((later < 4 * 60 * 60 * 1000 - thresholdMinutes cfg * 60 * 1000)%Z ->
       getValid (advance later w1)
         = Some (Returned token, advance later w1)) /\
      ((later >= 4 * 60 * 60 * 1000 - thresholdMinutes cfg * 60 * 1000)%Z ->
       (1 <= maxRetries cfg)%Z ->
       getValid (advance later w1)
         = Some (Thrown (McpError InvalidRequest
                           (failedAfter mcpMessage 0 noRefreshTokenError)),
                 emit (EvConsole ERROR_MESSAGES.TOKEN_EXPIRED)
                      (advance later w1))).
Proof.
  intros CK CS CU T NE.
  destruct (start_checks_environment env w) as [Ok _].
  rewrite (Ok (conj CK (conj CS CU))), T, (truthy_string_true NE).
  eexists. split; [reflexivity |]. split; [reflexivity |].
  split; [reflexivity |].
  intros later.
  destruct (@call_without_refresh_token
              (advance later
                 (set_tokenData (Some (staticTokenData token (clock w))) w))
              (staticTokenData token (clock w)) eq_refl eq_refl)
    as (Fresh & Stale & _).
  cbn [clock advance set_tokenData staticTokenData expiresAt accessToken]
    in Fresh, Stale.
  split.
  - intros L. apply Fresh. lia.
  - intros L Pos. apply Stale; [lia | exact Pos].
Qed.

(** X13: started without [DROPBOX_ACCESS_TOKEN] and without a token file,
    the module holds no state: start-up succeeds, and until a code is
    exchanged every call of [getValidAccessToken] throws the
    [InvalidRequest] error that asks to authenticate, and changes
    nothing. *)
Theorem cold_start_asks_to_authenticate (env : ProcessEnv) (w : World) :
  configured (DROPBOX_APP_KEY env) ->
  configured (DROPBOX_APP_SECRET env) ->
  configured (DROPBOX_REDIRECT_URI env) ->
  ~ configured (DROPBOX_ACCESS_TOKEN env) ->
  tokenFile w = Absent ->
  start env w = (Returned tt, set_tokenData None w) /\
  forall later : Z,
    getValid (advance later (set_tokenData None w))
      = Some (Thrown (McpError InvalidRequest NO_TOKEN_DATA),
              advance later (set_tokenData None w)).
Proof.
  intros CK CS CU NT A.
  destruct (start_checks_environment env w) as [Ok _].
  rewrite (Ok (conj CK (conj CS CU))).
  assert (L : bind load (fun data => put_tokenData data) w
              = (Returned tt, set_tokenData None w)).
  { unfold loadTokenData, try_catch, bind, fs_existsSync. rewrite A.
    reflexivity. }
  split; [| intros later; reflexivity].
  destruct (DROPBOX_ACCESS_TOKEN env) as [token |] eqn:T; [| exact L].
  destruct (truthy_string token) eqn:Tr; [| exact L].
  exfalso. apply NT. apply truthy_configured. exact Tr.
Qed.

(** ** Code exchange *)

(** What an exchange ends in: a denial, reported; a grant that is saved;
    or a grant that cannot be saved. *)
Lemma exchange_cases (code codeVerifier : string) (w : World) :
  let run := exchange code codeVerifier w in
  (exists latency error,
      tokenEndpoint (requestsSent w) code codeVerifier
        = (latency, Denied error) /\
      run = (Thrown (McpError InternalError
                       (EXCHANGE_FAILED ++ errorText error)),
             emit (EvConsole "Error exchanging code for tokens:")
                  (answered code latency w)))
  \/ (exists latency access_token refresh_token expires_in scopes e,
        tokenEndpoint (requestsSent w) code codeVerifier
          = (latency, Issued access_token refresh_token expires_in scopes) /\
        let w1 := answered code latency w in
        let td :=
          mkTokenData access_token refresh_token
                      (clock w + Z.of_N latency + expires_in * 1000)
                      (split " "%char scopes) None None (Some codeVerifier) in
        encryptData td = Some e /\
        run = (Returned td,
               set_tokenData (Some td) (written (JSON_stringify e) w1)))
  \/ (exists latency access_token refresh_token expires_in scopes unsaved,
        tokenEndpoint (requestsSent w) code codeVerifier
          = (latency, Issued access_token refresh_token expires_in scopes) /\
        save (mkTokenData access_token refresh_token
                (clock w + Z.of_N latency + expires_in * 1000)
                (split " "%char scopes) None None (Some codeVerifier))
             (answered code latency w)
          = (Thrown (McpError InternalError SAVE_FAILED), unsaved) /\
        run = (Thrown (McpError InternalError
                         (EXCHANGE_FAILED
                            ++ mcpMessage InternalError SAVE_FAILED)),
               emit (EvConsole "Error exchanging code for tokens:")
                    unsaved)).
Proof.
  cbv zeta.
  destruct (tokenEndpoint (requestsSent w) code codeVerifier)
    as [latency [access_token refresh_token expires_in scopes | error]] eqn:P;
    unfold exchangeCodeForTokens, try_catch, bind, axios_post_code, Date_now,
      ret; rewrite P.
  - destruct (save_cases encryptData JSON_stringify
                (mkTokenData access_token refresh_token
                   (clock (answered code latency w) + expires_in * 1000)
                   (split " "%char scopes) None None (Some codeVerifier))
                (answered code latency w))
      as [(e & En & _ & S) | [(_ & S) | (e & n & _ & _ & S)]];
      pose proof S as S'; rewrite S.
    + right; left.
      exists latency, access_token, refresh_token, expires_in, scopes, e.
      auto.
    + right; right. do 6 eexists. split; [reflexivity |].
      split; [exact S' | reflexivity].
    + right; right. do 6 eexists. split; [reflexivity |].
      split; [exact S' | reflexivity].
  - left. exists latency, error. auto.
Qed.

(** X14: when [exchangeCodeForTokens] returns, the state it returns is
    the one [tokenData] holds and the one whose encrypted form is in the
    token file.  It carries the tokens the provider issued, the expiry
    [Date.now() + expires_in * 1000] read after the answer, the scope
    string cut at its spaces (joined again by spaces it is the string the
    provider sent), the verifier, and no attempt counters, whatever state
    was held before. *)
Theorem exchange_returns_the_saved_state
        (code codeVerifier : string) (w w' : World) (td : TokenData) :
  exchange code codeVerifier w = (Returned td, w') ->
  exists latency access_token refresh_token expires_in scopes e,
    tokenEndpoint (requestsSent w) code codeVerifier
      = (latency, Issued access_token refresh_token expires_in scopes) /\
    td = mkTokenData access_token refresh_token
                     (clock w + Z.of_N latency + expires_in * 1000)
                     (split " "%char scopes) None None (Some codeVerifier) /\
    String.concat " " (scope td) = scopes /\
    tokenData w' = Some td /\
    encryptData td = Some e /\
    tokenFile w' = Contents (JSON_stringify e) /\
    requestsSent w' = S (requestsSent w).
Proof.
  intros X.
  destruct (exchange_cases code codeVerifier w)
    as [(latency & error & _ & Y)
       | [(latency & a & r & x & sc & e & P & En & Y)
         | (latency & a & r & x & sc & unsaved & _ & _ & Y)]];
    cbv zeta in *; rewrite Y in X; try discriminate X.
  inversion X; subst; clear X.
  exists latency, a, r, x, sc, e. conjs; auto.
  apply (concat_split " "%char sc).
Qed.


Lemma refresh_from_reset_state (w : World) (td : TokenData) :
  tokenData w = Some td ->
  refreshToken td <> EmptyString ->
  lastRefreshAttempt td = None ->
  or_zero (refreshAttempts td) = 0%Z ->
  (1 <= maxRetries cfg)%Z ->
  requestsSent (snd (refresh w)) = S (requestsSent w).
Proof.
  intros H E L A Pos.
  rewrite (@refresh_contacts_provider cfg _ encryptData JSON_stringify
             mcpMessage provider w td H E).
  - exact (contact_sends_one_request encryptData JSON_stringify mcpMessage
             provider (noteAttempt td (clock w))
             (set_tokenData (Some (noteAttempt td (clock w))) w)).
  - unfold inCooldown. rewrite L. reflexivity.
  - lia.
Qed.

(** X16: an exchange makes the state usable again, whatever it was
    before.  Right after [exchangeCodeForTokens] has returned,
    [getValidAccessToken] returns the new access token without a request
    if the token lives longer than the refresh threshold; and a
    [refreshAccessToken], given a non-empty refresh token and a maximum of
    at least one attempt, is neither in cooldown nor over the limit: it
    sends its request to the provider. *)
Theorem exchange_makes_the_state_usable
        (code codeVerifier : string) (w w' : World) (td : TokenData) :
  exchange code codeVerifier w = (Returned td, w') ->
  ((expiresAt td - thresholdMinutes cfg * 60 * 1000 > clock w')%Z ->
   getValid w' = Some (Returned (accessToken td), w')) /\
  (refreshToken td <> EmptyString -> (1 <= maxRetries cfg)%Z ->
   requestsSent (snd (refresh w')) = S (requestsSent w')).
Proof.
  intros X.
  destruct (exchange_cases code codeVerifier w)
    as [(latency & error & _ & Y)
       | [(latency & a & r & x & sc & e & P & En & Y)
         | (latency & a & r & x & sc & unsaved & _ & _ & Y)]];
    cbv zeta in *; rewrite Y in X; try discriminate X.
  inversion X; subst; clear X.
  split.
  - intros Fresh. unfold getValidAccessToken.
    cbn [tokenData set_tokenData clock written answered expiresAt
         accessToken] in *.
    destruct (Z.geb_spec (clock w + Z.of_N latency)
                (clock w + Z.of_N latency + x * 1000
                 - thresholdMinutes cfg * 60 * 1000)); [lia | reflexivity].
  - intros E Pos.
    eapply refresh_from_reset_state; eauto; reflexivity.
Qed.

(** X17: the exchanged state survives a restart.  For a state the store
    reads back, once [exchangeCodeForTokens] has returned it, a start of
    the module without [DROPBOX_ACCESS_TOKEN] on the same token file puts
    exactly that state into [tokenData]. *)
Theorem exchanged_state_survives_restart
        (code codeVerifier : string) (w w' boot : World) (td : TokenData)
        (env : ProcessEnv) :
  exchange code codeVerifier w = (Returned td, w') ->
  storeReadsBack encryptData decryptData JSON_stringify JSON_parse td ->
  configured (DROPBOX_APP_KEY env) ->
  configured (DROPBOX_APP_SECRET env) ->
  configured (DROPBOX_REDIRECT_URI env) ->
  ~ configured (DROPBOX_ACCESS_TOKEN env) ->
  tokenFile boot = tokenFile w' ->
  start env boot = (Returned tt, set_tokenData (Some td) boot).
Proof.
  intros X Law CK CS CU NT F.
  destruct (exchange_cases code codeVerifier w)
    as [(latency & error & _ & Y)
       | [(latency & a & r & x & sc & e & P & En & Y)
         | (latency & a & r & x & sc & unsaved & _ & _ & Y)]];
    cbv zeta in *; rewrite Y in X; try discriminate X.
  inversion X; subst; clear X.
  cbn [tokenFile set_tokenData written] in F.
  destruct (Law e En) as [Pa De].
  destruct (start_checks_environment env boot) as [Ok _].
  rewrite (Ok (conj CK (conj CS CU))).
  assert (L : bind load (fun data => put_tokenData data) boot
              = (Returned tt,
                 set_tokenData
                   (Some (mkTokenData a r
                            (clock w + Z.of_N latency + x * 1000)
                            (split " "%char sc) None None (Some codeVerifier)))
                   boot)).
  { unfold loadTokenData, try_catch, bind, fs_existsSync, fs_readFileSync,
      orThrow, ret.
    repeat (progress (rewrite ?F, ?Pa, ?De; simpl)). reflexivity. }
  destruct (DROPBOX_ACCESS_TOKEN env) as [token |] eqn:T; [| exact L].
  destruct (truthy_string token) eqn:Tr; [| exact L].
  exfalso. apply NT. apply truthy_configured. exact Tr.
Qed.

End StartupProperties.

(** The vectors of RFC 4648 for [foobar], and a pair of bytes that needs
    the two characters of the URL-safe alphabet. *)
Example base64url_foobar :
  base64url [Byte.x66; Byte.x6f; Byte.x6f; Byte.x62; Byte.x61; Byte.x72]
    = "Zm9vYmFy" /\
  base64url [Byte.x66; Byte.x6f; Byte.x6f; Byte.x62; Byte.x61] = "Zm9vYmE" /\
  base64url [Byte.x66; Byte.x6f; Byte.x6f; Byte.x62] = "Zm9vYg" /\
  base64url [Byte.xfb; Byte.xff] = "-_8".
Proof. repeat split. Qed.

Example urlencode_redirect :
  urlencode "http://localhost:3000/callback?a b"
  = "http%3A%2F%2Flocalhost%3A3000%2Fcallback%3Fa+b".
Proof. reflexivity. Qed.

(* ================================================================== *)
(** * Properties of the authorization request *)
(* ================================================================== *)

(** Lists three elements at a time. *)
Lemma list_ind3 (A : Type) (P : list A -> Prop) :
  P [] -> (forall a, P [a]) -> (forall a b, P [a; b]) ->
  (forall a b c rest, P rest -> P (a :: b :: c :: rest)) ->
  forall l, P l.
Proof.
  intros H0 H1 H2 H3.
  fix IH 1.
  intros [| a [| b [| c rest]]];
    [exact H0 | apply H1 | apply H2 | apply H3; apply IH].
Qed.

Lemma every_app (p : ascii -> bool) (s t : string) :
  every p (s ++ t) = every p s && every p t.
Proof.
  induction s as [| c s IH]; simpl; [reflexivity |].
  rewrite IH. apply andb_assoc.
Qed.

Lemma every_weaken (p q : ascii -> bool) (s : string) :
  (forall c, p c = true -> q c = true) -> every p s = true ->
  every q s = true.
Proof.
  intros PQ. induction s as [| c s IH]; simpl; [reflexivity |].
  intros H. apply andb_true_iff in H. destruct H as [Hc Hs].
  rewrite (PQ c Hc), (IH Hs). reflexivity.
Qed.

Lemma sextet_in_alphabet (i : N) :
  (i < 64)%N -> In (sextet i) base64urlAlphabet.
Proof.
  intros B. unfold sextet. apply nth_In.
  change (Datatypes.length base64urlAlphabet) with 64%nat. lia.
Qed.

Lemma sextet_unreserved (i : N) :
  (i < 64)%N -> unreserved (sextet i) = true /\ formSafe (sextet i) = true.
Proof.
  intros B. pose proof (sextet_in_alphabet B) as I.
  assert (U : forallb unreserved base64urlAlphabet = true) by reflexivity.
  assert (F : forallb formSafe base64urlAlphabet = true) by reflexivity.
  rewrite forallb_forall in U, F. auto.
Qed.

Lemma sextet_bounds (a b : Byte.byte) :
  let x := Byte.to_N a in
  let y := Byte.to_N b in
  (x / 4 < 64 /\ (x mod 4) * 16 < 64 /\ (x mod 4) * 16 + y / 16 < 64 /\
   (y mod 16) * 4 < 64 /\ (y mod 16) * 4 + x / 64 < 64 /\ x mod 64 < 64)%N.
Proof.
  cbv zeta.
  pose proof (Byte.to_N_bounded a) as Ba.
  pose proof (Byte.to_N_bounded b) as Bb.
  pose proof (N.mod_upper_bound (Byte.to_N a) 4).
  pose proof (N.mod_upper_bound (Byte.to_N b) 16).
  pose proof (N.mod_upper_bound (Byte.to_N a) 64).
  assert (Byte.to_N a / 4 < 64)%N
    by (apply N.Div0.div_lt_upper_bound; lia).
  assert (Byte.to_N b / 16 < 16)%N
    by (apply N.Div0.div_lt_upper_bound; lia).
  assert (Byte.to_N a / 64 < 4)%N
    by (apply N.Div0.div_lt_upper_bound; lia).
  lia.
Qed.

(** The encoding is as long as [buffer.toString('base64url')] is: four
    characters for three bytes, rounded up, and all of them from the
    alphabet. *)
Lemma base64url_shape (bytes : list Byte.byte) :
  String.length (base64url bytes) = ((4 * Datatypes.length bytes + 2) / 3)%nat /\
  every unreserved (base64url bytes) = true /\
  every formSafe (base64url bytes) = true.
Proof.
  induction bytes as [| a | a b | a b c rest (L & U & F)] using list_ind3.
  - repeat split.
  - destruct (sextet_bounds a a) as (B1 & B2 & _).
    cbn [base64url every String.length].
    rewrite !(proj1 (sextet_unreserved B1)), !(proj2 (sextet_unreserved B1)),
            !(proj1 (sextet_unreserved B2)), !(proj2 (sextet_unreserved B2)).
    repeat split.
  - destruct (sextet_bounds a b) as (B1 & _ & B3 & B4 & _).
    cbn [base64url every String.length].
    rewrite !(proj1 (sextet_unreserved B1)), !(proj2 (sextet_unreserved B1)),
            !(proj1 (sextet_unreserved B3)), !(proj2 (sextet_unreserved B3)),
            !(proj1 (sextet_unreserved B4)), !(proj2 (sextet_unreserved B4)).
    repeat split.
  - destruct (sextet_bounds a b) as (B1 & _ & B3 & _).
    destruct (sextet_bounds c b) as (_ & _ & _ & _ & B5 & B6).
    cbn [base64url every String.length].
    rewrite !(proj1 (sextet_unreserved B1)), !(proj2 (sextet_unreserved B1)),
            !(proj1 (sextet_unreserved B3)), !(proj2 (sextet_unreserved B3)),
            !(proj1 (sextet_unreserved B5)), !(proj2 (sextet_unreserved B5)),
            !(proj1 (sextet_unreserved B6)), !(proj2 (sextet_unreserved B6)).
    rewrite L, U, F. cbn [andb Datatypes.length].
    repeat split.
    replace (4 * S (S (S (Datatypes.length rest))) + 2)%nat
      with (4 * Datatypes.length rest + 2 + 4 * 3)%nat by lia.
    rewrite Nat.div_add by lia. lia.
Qed.

Lemma append_associative (s t u : string) : (s ++ t) ++ u = s ++ (t ++ u).
Proof.
  induction s as [| c s IH]; simpl; [reflexivity | now rewrite IH].
Qed.

Lemma urlencode_of_safe_text (s : string) :
  every formSafe s = true -> urlencode s = s.
Proof.
  induction s as [| c s IH]; simpl; [reflexivity |].
  intros H. apply andb_true_iff in H. destruct H as [Hc Hs].
  unfold formEncode. rewrite Hc. simpl. now rewrite IH.
Qed.

Lemma hexDigit_is_safe (i : N) : (i < 16)%N -> formSafe (hexDigit i) = true.
Proof.
  intros B.
  assert (F : forallb formSafe (list_ascii_of_string "0123456789ABCDEF") = true)
    by reflexivity.
  rewrite forallb_forall in F. apply F. unfold hexDigit. apply nth_In.
  change (Datatypes.length (list_ascii_of_string "0123456789ABCDEF"))
    with 16%nat. lia.
Qed.

Lemma N_of_ascii_bounded (c : ascii) : (N_of_ascii c < 256)%N.
Proof.
  destruct c as [[|] [|] [|] [|] [|] [|] [|] [|]]; reflexivity.
Qed.

Lemma urlencode_chars (s : string) : every queryChar (urlencode s) = true.
Proof.
  induction s as [| c s IH]; simpl; [reflexivity |].
  rewrite every_app, IH, andb_true_r.
  unfold formEncode.
  destruct (formSafe c) eqn:S.
  - simpl. unfold queryChar. rewrite S. reflexivity.
  - destruct (Ascii.eqb c " "%char); [reflexivity |].
    pose proof (N_of_ascii_bounded c) as B.
    assert (H1 : (N_of_ascii c / 16 < 16)%N)
      by (apply N.Div0.div_lt_upper_bound; lia).
    assert (H2 : (N_of_ascii c mod 16 < 16)%N)
      by (apply N.mod_upper_bound; lia).
    cbn [every]. unfold queryChar at 2 3.
    rewrite (hexDigit_is_safe H1), (hexDigit_is_safe H2). reflexivity.
Qed.

Section AuthorizationProperties.

Variable sha256 : string -> list Byte.byte.


(** X19: the URL [generateAuthUrl] returns is the authorization endpoint
    followed by six parameters in a fixed order.  The application key and
    the redirect URI are percent-encoded, so that they consist of letters,
    digits and [* - . _ % +] only and cannot add or cut a parameter; the
    challenge needs no escape and stands as it is, and it is the challenge
    of the very verifier returned with the URL. *)
Theorem authorization_url_is_well_formed
        (appKey redirectUri : string) (entropy : list Byte.byte) :
  let request := generateAuthUrl sha256 appKey redirectUri entropy in
  AuthUrl.url request =
    "https://www.dropbox.com/oauth2/authorize?client_id="
      ++ urlencode appKey
      ++ "&response_type=code&redirect_uri=" ++ urlencode redirectUri
      ++ "&code_challenge="
      ++ base64url (sha256 (AuthUrl.codeVerifier request))
      ++ "&code_challenge_method=S256&token_access_type=offline" /\
  AuthUrl.codeVerifier request = base64url entropy /\
  every queryChar (urlencode appKey) = true /\
  every queryChar (urlencode redirectUri) = true /\
  queryChar "&" = false /\ queryChar "=" = false /\
  queryChar "#" = false /\ queryChar " " = false.
Proof.
  cbv zeta. unfold generateAuthUrl, generatePKCE, searchParams.
  cbn [AuthUrl.url AuthUrl.codeVerifier Pkce.codeVerifier Pkce.codeChallenge
       map fst snd String.concat].
  destruct (base64url_shape (sha256 (base64url entropy))) as (_ & _ & F).
  rewrite (urlencode_of_safe_text _ F).
  split.
  - change (urlencode "client_id") with "client_id".
    change (urlencode "response_type") with "response_type".
    change (urlencode "code") with "code".
    change (urlencode "redirect_uri") with "redirect_uri".
    change (urlencode "code_challenge") with "code_challenge".
    change (urlencode "code_challenge_method") with "code_challenge_method".
    change (urlencode "S256") with "S256".
    change (urlencode "token_access_type") with "token_access_type".
    change (urlencode "offline") with "offline".
    rewrite !append_associative. reflexivity.
  - repeat split; try apply urlencode_chars.
Qed.

End AuthorizationProperties.

(* ================================================================== *)
(** * The further properties on the reference deployment *)
(* ================================================================== *)


(** What the full disk costs: after the failed refresh the old token file
    is gone, twelve bytes are in its place, and a process that starts on
    them cannot load a state. *)
Example full_disk_loses_the_token_file :
  let w := Demo.worldOnFullDisk 1700000000000 Demo.issued "old state" 12 in
  let w' := snd (Demo.refresh Demo.granting w) in
  tokenFile w' <> tokenFile w /\
  (exists text, tokenFile w' = Contents text /\ String.length text = 12%nat) /\
  fst (Demo.load w') = Thrown (McpError InternalError LOAD_FAILED).
Proof.
  cbv zeta. split; [vm_compute; discriminate |].
  split; [eexists; split; vm_compute; reflexivity |].
  vm_compute. reflexivity.
Qed.

(** The outage: the error thrown is a retryable [SERVER_ERROR]. *)
Lemma outage_throws_one_of_the_codes :
  serverError = McpError InvalidRequest NO_REFRESH_TOKEN \/
  exists message code retryable,
    serverError = TokenRefreshError message code retryable /\
    In code refreshErrorCodes /\
    (retryable = false <->
     code = "INVALID_GRANT" \/ code = "MAX_RETRIES_EXCEEDED").
Proof.
  apply (refresh_throws_only_its_own_errors
           Demo.config (Demo.encryptWith Demo.key) Demo.stringify
           Demo.mcpMessage Demo.unavailable
           (Demo.worldAt 1700000000000 Demo.issued)
           (w' := snd (Demo.refresh Demo.unavailable
                         (Demo.worldAt 1700000000000 Demo.issued)))).
  vm_compute. reflexivity.
Defined.

(** The outage, seen from [getValidAccessToken]. *)
Lemma outage_surfaces_as_invalid_request :
  exists message,
    McpError InvalidRequest
             ("Token refresh failed after 3 attempts: "
                ++ ERROR_MESSAGES.SERVER_ERROR)
    = McpError InvalidRequest message.
Proof.
  apply (getValidAccessToken_throws_invalid_request
           Demo.config (Demo.encryptWith Demo.key) Demo.stringify
           Demo.mcpMessage Demo.unavailable
           (Demo.worldAt 1700000000000 Demo.issued)
           (w' := match Demo.getValid Demo.unavailable
                          (Demo.worldAt 1700000000000 Demo.issued) with
                  | Some (_, w') => w'
                  | None => Demo.worldAt 1700000000000 Demo.issued
                  end)).
  vm_compute. reflexivity.
Defined.

(** The provider grants: the token handed out is the one now stored. *)
Lemma granted_token_is_the_stored_one :
  let w := Demo.worldAt 1700000000000 Demo.issued in
  let w' := match Demo.getValid Demo.granting w with
            | Some (_, w') => w'
            | None => w
            end in
  exists td',
    tokenData w' = Some td' /\
    accessToken td' = "sl.new" /\
    (w' = w \/
     (refreshAttempts td' = Some 0%Z /\
      lastRefreshAttempt td' = None /\
      exists e, Demo.encryptWith Demo.key td' = Some e /\
                tokenFile w' = Contents (Demo.stringify e))).
Proof.
  cbv zeta.
  apply (returned_token_is_the_stored_one
           Demo.config (Demo.encryptWith Demo.key) Demo.stringify
           Demo.mcpMessage Demo.granting
           (Demo.worldAt 1700000000000 Demo.issued)).
  vm_compute. reflexivity.
Defined.

(** A minute after the outage: the refresh is refused unsent. *)
Lemma exhausted_refresh_sends_nothing :
  let w := Demo.worldAt 1700000060000 Demo.exhausted in
  exists e w' td',
    Demo.refresh Demo.unavailable w = (Thrown e, w') /\
    (e = TokenRefreshError COOLDOWN "RATE_LIMIT" true \/
     e = TokenRefreshError ERROR_MESSAGES.REFRESH_FAILED
                           "MAX_RETRIES_EXCEEDED" false) /\
    requestsSent w' = requestsSent w /\
    tokenFile w' = tokenFile w /\
    tokenData w' = Some td' /\
    refreshToken td' <> EmptyString /\
    (or_zero (refreshAttempts td') >= maxRetries Demo.config)%Z /\
    sameCredentials td' Demo.exhausted.
Proof.
  cbv zeta.
  apply (locked_out_refresh_sends_nothing
           Demo.config (Demo.encryptWith Demo.key) Demo.stringify
           Demo.mcpMessage Demo.unavailable
           (Demo.worldAt 1700000060000 Demo.exhausted)
           (td := Demo.exhausted)).
  - reflexivity.
  - discriminate.
  - vm_compute. discriminate.
Defined.

(** A minute after the outage, with the provider back: the call still
    sends nothing. *)
Lemma exhausted_call_sends_nothing_to_a_granting_provider :
  let w := Demo.worldAt 1700000060000 Demo.exhausted in
  exists message w' td',
    Demo.getValid Demo.granting w
      = Some (Thrown (McpError InvalidRequest message), w') /\
    requestsSent w' = requestsSent w /\
    tokenFile w' = tokenFile w /\
    tokenData w' = Some td' /\
    refreshToken td' <> EmptyString /\
    (or_zero (refreshAttempts td') >= maxRetries Demo.config)%Z /\
    sameCredentials td' Demo.exhausted.
Proof.
  cbv zeta.
  apply (locked_out_call_sends_nothing
           Demo.config (Demo.encryptWith Demo.key) Demo.stringify
           Demo.mcpMessage Demo.granting
           (Demo.worldAt 1700000060000 Demo.exhausted)
           (td := Demo.exhausted)).
  - reflexivity.
  - discriminate.
  - vm_compute. discriminate.
  - vm_compute. discriminate.
Defined.

(** The outage of the scenario ends in the lock-out. *)
Lemma outage_of_the_scenario_ends_in_lock_out :
  let w := Demo.worldAt 1700000000000 Demo.issued in
  exists message w' td',
    Demo.getValid Demo.unavailable w
      = Some (Thrown (McpError InvalidRequest message), w') /\
    requestsSent w' = (requestsSent w + Z.to_nat (maxRetries Demo.config))%nat /\
    tokenData w' = Some td' /\
    refreshToken td' <> EmptyString /\
    (or_zero (refreshAttempts td') >= maxRetries Demo.config)%Z.
Proof.
  cbv zeta.
  apply (outage_ends_in_lock_out
           Demo.config (Demo.encryptWith Demo.key) Demo.stringify
           Demo.mcpMessage (provider := Demo.unavailable)
           (Demo.worldAt 1700000000000 Demo.issued) (td := Demo.issued)).
  - vm_compute. discriminate.
  - intros n refresh_token. do 3 eexists. reflexivity.
  - reflexivity.
  - vm_compute. discriminate.
  - discriminate.
  - reflexivity.
  - reflexivity.
Defined.

(** A token granted for four hours is fresh. *)
Lemma granted_token_is_fresh :
  let w := Demo.worldAt 1700000000000 Demo.issued in
  Demo.getValid Demo.granting (snd (Demo.refresh Demo.granting w))
    = Some (Returned "sl.new", snd (Demo.refresh Demo.granting w)).
Proof.
  cbv zeta.
  apply (refreshed_token_is_fresh
           Demo.config (Demo.encryptWith Demo.key) Demo.stringify
           Demo.mcpMessage Demo.granting
           (Demo.worldAt 1700000000000 Demo.issued)
           (td := Demo.issued) (access_token := "sl.new")
           (latency := 95%N) (expires_in := 14400%Z)).
  - reflexivity.
  - reflexivity.
  - vm_compute. reflexivity.
  - vm_compute. reflexivity.
Defined.

(** Without the application secret the module does not start. *)
Lemma startup_without_secret_is_refused :
  let env := mkProcessEnv (Some "app-key") None
                          (Some "http://localhost:3000/callback")
                          (Some "sl.static") in
  Scenario.start env (Scenario.boot 1700000000000 Absent)
    = (Thrown (McpError InvalidParams MISSING_ENV),
       Scenario.boot 1700000000000 Absent).
Proof.
  cbv zeta.
  apply (proj2 (startup_requires_the_three_settings
                  (Demo.decryptWith Demo.key) Demo.parse
                  (mkProcessEnv (Some "app-key") None
                                (Some "http://localhost:3000/callback")
                                (Some "sl.static"))
                  (Scenario.boot 1700000000000 Absent))).
  intros (_ & (s & S & _) & _). discriminate S.
Defined.

Lemma scenario_is_configured :
  configured (DROPBOX_APP_KEY Scenario.env) /\
  configured (DROPBOX_APP_SECRET Scenario.env) /\
  configured (DROPBOX_REDIRECT_URI Scenario.env) /\
  ~ configured (DROPBOX_ACCESS_TOKEN Scenario.env).
Proof.
  repeat split; try (eexists; split; [reflexivity | discriminate]).
  intros (s & S & _). discriminate S.
Qed.

(** The static token next to a corrupted token file: start-up succeeds
    and the token is served, then refused. *)
Lemma static_token_of_the_scenario :
  let w := Scenario.boot 1700000000000 (Contents "{ not what the store wrote") in
  exists w1,
    Scenario.start Scenario.envStatic w = (Returned tt, w1) /\
    tokenFile w1 = tokenFile w /\
    trace w1 = trace w /\
    forall later : Z,
      ((later < 4 * 60 * 60 * 1000 - thresholdMinutes Demo.config * 60 * 1000)%Z ->
       Demo.getValid Demo.granting (advance later w1)
         = Some (Returned "sl.static", advance later w1)) /\
      ((later >= 4 * 60 * 60 * 1000 - thresholdMinutes Demo.config * 60 * 1000)%Z ->
       (1 <= maxRetries Demo.config)%Z ->
       Demo.getValid Demo.granting (advance later w1)
         = Some (Thrown (McpError InvalidRequest
                           (failedAfter Demo.mcpMessage 0 noRefreshTokenError)),
                 emit (EvConsole ERROR_MESSAGES.TOKEN_EXPIRED)
                      (advance later w1))).
Proof.
  cbv zeta.
  apply (static_token_is_served_for_four_hours
           Demo.config (Demo.encryptWith Demo.key) (Demo.decryptWith Demo.key)
           Demo.stringify Demo.parse Demo.mcpMessage Demo.granting
           Scenario.envStatic
           (Scenario.boot 1700000000000 (Contents "{ not what the store wrote"))
           (token := "sl.static")).
  - eexists; split; [reflexivity | discriminate].
  - eexists; split; [reflexivity | discriminate].
  - eexists; split; [reflexivity | discriminate].
  - reflexivity.
  - discriminate.
Defined.

(** The first run. *)
Lemma first_run_asks_to_authenticate :
  let w := Scenario.boot 1700000000000 Absent in
  Scenario.start Scenario.env w = (Returned tt, set_tokenData None w) /\
  forall later : Z,
    Demo.getValid Demo.granting (advance later (set_tokenData None w))
      = Some (Thrown (McpError InvalidRequest NO_TOKEN_DATA),
              advance later (set_tokenData None w)).
Proof.
  cbv zeta.
  destruct scenario_is_configured as (CK & CS & CU & NT).
  apply (cold_start_asks_to_authenticate
           Demo.config (Demo.encryptWith Demo.key) (Demo.decryptWith Demo.key)
           Demo.stringify Demo.parse Demo.mcpMessage Demo.granting
           Scenario.env (Scenario.boot 1700000000000 Absent) CK CS CU NT).
  reflexivity.
Defined.

(** The first exchange after the first run. *)
Lemma first_exchange_is_saved :
  let w := Scenario.boot 1700000000000 Absent in
  let run := Scenario.exchange Scenario.issuing "code-1" "verifier-1" w in
  exists td latency access_token refresh_token expires_in scopes e,
    fst run = Returned td /\
    Scenario.issuing (requestsSent w) "code-1" "verifier-1"
      = (latency, Issued access_token refresh_token expires_in scopes) /\
    td = mkTokenData access_token refresh_token
                     (clock w + Z.of_N latency + expires_in * 1000)
                     (split " "%char scopes) None None (Some "verifier-1") /\
    String.concat " " (scope td) = scopes /\
    tokenData (snd run) = Some td /\
    Demo.encryptWith Demo.key td = Some e /\
    tokenFile (snd run) = Contents (Demo.stringify e) /\
    requestsSent (snd run) = S (requestsSent w).
Proof.
  cbv zeta.
  destruct (Scenario.exchange Scenario.issuing "code-1" "verifier-1"
              (Scenario.boot 1700000000000 Absent)) as [[td | e] w'] eqn:X.
  - destruct (exchange_returns_the_saved_state
                (Demo.encryptWith Demo.key) Demo.stringify Demo.mcpMessage
                Scenario.issuing Scenario.description "code-1" "verifier-1"
                (Scenario.boot 1700000000000 Absent) X)
      as (latency & a & r & x & sc & en & H).
    exists td, latency, a, r, x, sc, en. split; [reflexivity | exact H].
  - exfalso. vm_compute in X. discriminate X.
Defined.


(** An exchange on the locked-out state of the outage. *)
Lemma exchange_after_the_outage :
  let w := Demo.worldAt 1700000060000 Demo.exhausted in
  let run := Scenario.exchange Scenario.issuing "code-2" "verifier-2" w in
  Demo.getValid Demo.granting (snd run)
    = Some (Returned "sl.first", snd run) /\
  requestsSent (snd (Demo.refresh Demo.granting (snd run)))
    = S (requestsSent (snd run)).
Proof.
  cbv zeta.
  destruct (exchange_makes_the_state_usable
              Demo.config (Demo.encryptWith Demo.key) Demo.stringify
              Demo.mcpMessage Demo.granting Scenario.issuing
              Scenario.description "code-2" "verifier-2"
              (Demo.worldAt 1700000060000 Demo.exhausted)
              (w' := snd (Scenario.exchange Scenario.issuing "code-2"
                            "verifier-2"
                            (Demo.worldAt 1700000060000 Demo.exhausted)))
              (td := mkTokenData "sl.first" "rt-1" 1700014460150
                       ["files.content.read"; "files.content.write"]
                       None None (Some "verifier-2")))
    as [Fresh Usable].
  - vm_compute. reflexivity.
  - split.
    + apply Fresh. vm_compute. reflexivity.
    + apply Usable; [discriminate | vm_compute; discriminate].
Defined.

(** The first exchange, then a restart. *)
Lemma first_exchange_survives_restart :
  let w := Scenario.boot 1700000000000 Absent in
  let run := Scenario.exchange Scenario.issuing "code-1" "verifier-1" w in
  let td := mkTokenData "sl.first" "rt-1" 1700014400150
              ["files.content.read"; "files.content.write"]
              None None (Some "verifier-1") in
  let again := Scenario.boot 1700000500000 (tokenFile (snd run)) in
  Scenario.start Scenario.env again = (Returned tt, set_tokenData (Some td) again).
Proof.
  cbv zeta.
  destruct scenario_is_configured as (CK & CS & CU & NT).
  apply (exchanged_state_survives_restart
           (encryptData := Demo.encryptWith Demo.key)
           (decryptData := Demo.decryptWith Demo.key)
           (JSON_stringify := Demo.stringify) (JSON_parse := Demo.parse)
           Demo.mcpMessage Scenario.issuing Scenario.description
           "code-1" "verifier-1"
           (Scenario.boot 1700000000000 Absent)
           (w' := snd (Scenario.exchange Scenario.issuing "code-1" "verifier-1"
                         (Scenario.boot 1700000000000 Absent)))
           (Scenario.boot 1700000500000
              (tokenFile (snd (Scenario.exchange Scenario.issuing "code-1"
                                 "verifier-1"
                                 (Scenario.boot 1700000000000 Absent)))))
           (td := mkTokenData "sl.first" "rt-1" 1700014400150
                    ["files.content.read"; "files.content.write"]
                    None None (Some "verifier-1"))
           Scenario.env).
  - vm_compute. reflexivity.
  - intros e En. vm_compute in En. inversion En; subst; clear En.
    split; vm_compute; reflexivity.
  - exact CK.
  - exact CS.
  - exact CU.
  - exact NT.
  - reflexivity.
Defined.


(* ================================================================== *)
(** * Memory, disk and restart *)
(* ================================================================== *)

Section LifecycleProperties.

Variable cfg : RefreshConfig.
Variable EncryptedTokenData : Type.
Variable encryptData : TokenData -> option EncryptedTokenData.
Variable decryptData : EncryptedTokenData -> option TokenData.
Variable JSON_stringify : EncryptedTokenData -> string.
Variable JSON_parse : string -> option EncryptedTokenData.
Variable mcpMessage : ErrorCode -> string -> string.
Variable provider : nat -> string -> N * AxiosReply.
Variable tokenEndpoint : nat -> string -> string -> N * ExchangeReply.
Variable error_description : JsError -> option string.

Local Abbreviation refresh :=
  (refreshAccessToken cfg encryptData JSON_stringify mcpMessage provider).
Local Abbreviation load := (loadTokenData decryptData JSON_parse).
Local Abbreviation getValid :=
  (getValidAccessToken cfg encryptData JSON_stringify mcpMessage provider).
Local Abbreviation start := (loadModule decryptData JSON_parse).
Local Abbreviation exchange :=
  (exchangeCodeForTokens encryptData JSON_stringify mcpMessage tokenEndpoint
                         error_description).
Local Abbreviation readsBack :=
  (storeReadsBack encryptData decryptData JSON_stringify JSON_parse).

Lemma load_of_written_state (w : World) (d : TokenData)
      (e : EncryptedTokenData) :
  readsBack d -> encryptData d = Some e ->
  tokenFile w = Contents (JSON_stringify e) ->
  load w = (Returned (Some d), w).
Proof.
  intros Law En F. destruct (Law e En) as [P D].
  unfold loadTokenData, try_catch, bind, fs_existsSync, fs_readFileSync,
    orThrow, ret.
  repeat (progress (rewrite ?F, ?P, ?D; simpl)). reflexivity.
Qed.

Lemma start_of_written_state (env : ProcessEnv) (w : World) (d : TokenData)
      (e : EncryptedTokenData) :
  readsBack d -> encryptData d = Some e ->
  tokenFile w = Contents (JSON_stringify e) ->
  configured (DROPBOX_APP_KEY env) ->
  configured (DROPBOX_APP_SECRET env) ->
  configured (DROPBOX_REDIRECT_URI env) ->
  ~ configured (DROPBOX_ACCESS_TOKEN env) ->
  start env w = (Returned tt, set_tokenData (Some d) w).
Proof.
  intros Law En F CK CS CU NT.
  destruct (start_checks_environment decryptData JSON_parse env w) as [Ok _].
  rewrite (Ok (conj CK (conj CS CU))).
  assert (L : bind load (fun data => put_tokenData data) w
              = (Returned tt, set_tokenData (Some d) w)).
  { unfold bind. rewrite (load_of_written_state w Law En F). reflexivity. }
  destruct (DROPBOX_ACCESS_TOKEN env) as [token |] eqn:T; [| exact L].
  destruct (truthy_string token) eqn:Tr; [| exact L].
  exfalso. apply NT. apply truthy_configured. exact Tr.
Qed.

(** X20: after a successful refresh, memory and disk agree: for a state
    the store reads back, once [refreshAccessToken] has returned,
    [loadTokenData] returns exactly the state [tokenData] holds. *)
Theorem refresh_leaves_memory_and_disk_in_step
        (w w' : World) (token : string) :
  refresh w = (Returned token, w') ->
  (forall td', tokenData w' = Some td' -> readsBack td') ->
  exists td',
    tokenData w' = Some td' /\
    accessToken td' = token /\
    load w' = (Returned (Some td'), w').
Proof.
  intros R Law.
  destruct (run_returned (@refresh_run cfg _ encryptData JSON_stringify
                            mcpMessage provider _ _ _ R))
    as (td' & e & T & A & _ & _ & En & F).
  exists td'. split; [exact T |]. split; [exact A |].
  apply (load_of_written_state w' (Law td' T) En F).
Qed.

(** X21: in memory a failed call of [getValidAccessToken] costs nothing
    but attempts: the access token, the refresh token, the expiry, the
    scope and the verifier in [tokenData] are as before, and the attempt
    counter has not gone down.  The token file is untouched as long as no
    write to it fails once the file is opened; when such a write fails
    after [n] bytes, the file is untouched or holds the first [n] bytes of
    the encrypted form of a refreshed state that could not be saved. *)
Theorem failed_call_keeps_credentials
        (w w' : World) (e : JsError) (td : TokenData) :
  tokenData w = Some td ->
  getValid w = Some (Thrown e, w') ->
  exists td',
    tokenData w' = Some td' /\
    sameCredentials td' td /\
    (or_zero (refreshAttempts td) <= or_zero (refreshAttempts td'))%Z /\
    (writeFault w = None -> tokenFile w' = tokenFile w) /\
    (tokenFile w' = tokenFile w \/
     exists n, writeFault w = Some n /\
               cutShort encryptData JSON_stringify n (refreshToken td)
                        (tokenFile w')).
Proof.
  intros H. unfold getValidAccessToken. rewrite H.
  destruct (clock w >=? _)%Z; [| discriminate].
  intros L.
  destruct (@loop_frame cfg _ encryptData JSON_stringify mcpMessage provider
              _ _ _ _ _ td L H)
    as (Q & _ & td' & T & F1 & F2 & F3 & Ke & _).
  destruct (Ke e eq_refl) as (_ & G1 & G2 & G3 & G4).
  cbn [requestsSent emit tokenFile writeFault] in Q, G3, G4.
  exists td'. unfold sameCredentials. conjs; auto; try lia.
  intros W. destruct G3 as [G3 | (n & W' & _)]; [exact G3 |].
  rewrite W in W'. discriminate W'.
Qed.

(** X22: the lock-out does not survive a restart.  After
    [exchangeCodeForTokens] has returned a state the store reads back,
    however a later call of [getValidAccessToken] fails, as long as no
    write to the token file fails once the file is opened, a start of the
    module without [DROPBOX_ACCESS_TOKEN] on the token file as that call
    left it puts the exchanged state, with no attempt counted, into
    [tokenData]. *)
Theorem restart_forgets_failed_attempts
        (code codeVerifier : string) (w w1 w2 w3 boot : World)
        (td td2 : TokenData) (e : JsError) (env : ProcessEnv) :
  exchange code codeVerifier w = (Returned td, w1) ->
  readsBack td ->
  tokenData w2 = Some td2 ->
  tokenFile w2 = tokenFile w1 ->
  writeFault w2 = None ->
  getValid w2 = Some (Thrown e, w3) ->
  configured (DROPBOX_APP_KEY env) ->
  configured (DROPBOX_APP_SECRET env) ->
  configured (DROPBOX_REDIRECT_URI env) ->
  ~ configured (DROPBOX_ACCESS_TOKEN env) ->
  tokenFile boot = tokenFile w3 ->
  start env boot = (Returned tt, set_tokenData (Some td) boot) /\
  refreshAttempts td = None /\
  lastRefreshAttempt td = None.
Proof.
  intros X Law H2 F2 W2 G CK CS CU NT FB.
  destruct (exchange_cases encryptData JSON_stringify mcpMessage
              tokenEndpoint error_description code codeVerifier w)
    as [(latency & error & _ & Y)
       | [(latency & a & r & x & sc & en & P & En & Y)
         | (latency & a & r & x & sc & unsaved & _ & _ & Y)]];
    cbv zeta in *; rewrite Y in X; try discriminate X.
  inversion X; subst; clear X.
  cbn [tokenFile set_tokenData written] in F2.
  assert (F3 : tokenFile w3 = tokenFile w2).
  { revert G. unfold getValidAccessToken. rewrite H2.
    destruct (clock w2 >=? _)%Z; [| discriminate].
    intros L.
    destruct (@loop_frame cfg _ encryptData JSON_stringify mcpMessage provider
                _ _ _ _ _ td2 L H2)
      as (_ & _ & td' & _ & _ & _ & _ & Ke & _).
    destruct (Ke e eq_refl) as (_ & _ & _ & [G3 | (n & W & _)] & _);
      [exact G3 |].
    cbn [writeFault emit] in W. rewrite W2 in W. discriminate W. }
  split; [| split; reflexivity].
  apply (start_of_written_state env boot Law En); auto.
  congruence.
Qed.

End LifecycleProperties.

(** The refresh of the scenario leaves memory and disk in step. *)
Lemma granted_refresh_leaves_memory_and_disk_in_step :
  let w' := snd (Demo.refresh Demo.granting
                   (Demo.worldAt 1700000000000 Demo.issued)) in
  exists td',
    tokenData w' = Some td' /\
    accessToken td' = "sl.new" /\
    Demo.load w' = (Returned (Some td'), w').
Proof.
  cbv zeta.
  apply (refresh_leaves_memory_and_disk_in_step
           Demo.config
           (encryptData := Demo.encryptWith Demo.key)
           (decryptData := Demo.decryptWith Demo.key)
           (JSON_stringify := Demo.stringify) (JSON_parse := Demo.parse)
           Demo.mcpMessage Demo.granting
           (Demo.worldAt 1700000000000 Demo.issued)).
  - vm_compute. reflexivity.
  - intros td' T. vm_compute in T. inversion T; subst; clear T.
    intros e En. vm_compute in En. inversion En; subst; clear En.
    split; vm_compute; reflexivity.
Defined.

(** Three grants that cannot be saved on a full disk: the call fails, the
    credentials in memory are the old ones, the token file is cut. *)
Lemma call_on_full_disk_keeps_credentials :
  let w := Demo.worldOnFullDisk 1700000000000 Demo.issued "old state" 12 in
  let w' := match Demo.getValid Demo.granting w with
            | Some (_, w') => w'
            | None => w
            end in
  exists td',
    tokenData w' = Some td' /\
    sameCredentials td' Demo.issued /\
    (or_zero (refreshAttempts Demo.issued) <= or_zero (refreshAttempts td'))%Z /\
    (Some 12%nat = None -> tokenFile w' = Contents "old state") /\
    (tokenFile w' = Contents "old state" \/
     exists n, Some 12%nat = Some n /\
               cutShort (Demo.encryptWith Demo.key) Demo.stringify n "rt-1"
                        (tokenFile w')).
Proof.
  cbv zeta.
  apply (failed_call_keeps_credentials
           Demo.config (Demo.encryptWith Demo.key) Demo.stringify
           Demo.mcpMessage Demo.granting
           (Demo.worldOnFullDisk 1700000000000 Demo.issued "old state" 12)
           (e := McpError InvalidRequest
                   ("Token refresh failed after 3 attempts: "
                      ++ "Token refresh failed: "
                      ++ Demo.mcpMessage InternalError SAVE_FAILED))).
  - reflexivity.
  - vm_compute. reflexivity.
Defined.

(** The exchange, the outage and a restart: the exchanged state is back. *)
Lemma restart_after_the_outage :
  let w1 := snd (Scenario.exchange Scenario.issuing "code-1" "verifier-1"
                   (Scenario.boot 1700000000000 Absent)) in
  let td := mkTokenData "sl.first" "rt-1" 1700014400150
              ["files.content.read"; "files.content.write"]
              None None (Some "verifier-1") in
  let w2 := advance 14400000 w1 in
  let w3 := match Demo.getValid Demo.unavailable w2 with
            | Some (_, w3) => w3
            | None => w2
            end in
  let again := Scenario.boot 1700015000000 (tokenFile w3) in
  Scenario.start Scenario.env again
    = (Returned tt, set_tokenData (Some td) again) /\
  refreshAttempts td = None /\
  lastRefreshAttempt td = None.
Proof.
  cbv zeta.
  destruct scenario_is_configured as (CK & CS & CU & NT).
  set (w1 := snd (Scenario.exchange Scenario.issuing "code-1" "verifier-1"
                    (Scenario.boot 1700000000000 Absent))).
  set (w3 := match Demo.getValid Demo.unavailable (advance 14400000 w1) with
             | Some (_, w3) => w3
             | None => advance 14400000 w1
             end).
  apply (restart_forgets_failed_attempts
           Demo.config
           (encryptData := Demo.encryptWith Demo.key)
           (decryptData := Demo.decryptWith Demo.key)
           (JSON_stringify := Demo.stringify) (JSON_parse := Demo.parse)
           Demo.mcpMessage Demo.unavailable Scenario.issuing
           Scenario.description "code-1" "verifier-1"
           (Scenario.boot 1700000000000 Absent)
           (w1 := w1) (advance 14400000 w1) (w3 := w3)
           (Scenario.boot 1700015000000 (tokenFile w3))
           (td2 := mkTokenData "sl.first" "rt-1" 1700014400150
                     ["files.content.read"; "files.content.write"]
                     None None (Some "verifier-1"))
           (e := McpError InvalidRequest
                   ("Token refresh failed after 3 attempts: "
                      ++ ERROR_MESSAGES.SERVER_ERROR))
           Scenario.env).
  - vm_compute. reflexivity.
  - intros e En. vm_compute in En. inversion En; subst; clear En.
    split; vm_compute; reflexivity.
  - vm_compute. reflexivity.
  - reflexivity.
  - reflexivity.
  - vm_compute. reflexivity.
  - exact CK.
  - exact CS.
  - exact CU.
  - exact NT.
  - reflexivity.
Defined.
